(** * Risk-score ledger and intervention lifecycle of the HSU Early Warning
      System: a shallow embedding of [database/db_manager.py] and
      [utils/intervention_manager.py], and the properties of the
      specification checked against it. *)

From Stdlib Require Import PrimFloat Ascii.
From stdpp Require Import gmap strings list fin_maps pretty sorting.

Open Scope string_scope.
Open Scope Z_scope.

(* Decimal float literals denote the nearest binary64 value, as in Python. *)
Set Warnings "-inexact-float".
(* stdpp's naive_solver clears hypotheses by name. *)
Set Warnings "-clear-no-such-hyp".

(** ** Values and rows *)

(** A value bound to a statement parameter or held in a column: Python's
    [None] / SQL NULL, an integer, a float (binary64, as in CPython and in
    SQLite's REAL), or text. *)
Inductive value :=
  | VNull
  | VInt (z : Z)
  | VReal (f : float)
  | VText (s : string).

(** A row is what [dict(row)] makes of a [sqlite3.Row]: a string-keyed
    dictionary.  The integer primary key of a table is kept as the key of
    the table itself. *)
Abbreviation row := (gmap string value).
Abbreviation table := (gmap Z row).

(** [d.get(k)] and [d.get(k, dflt)] on a dictionary. *)
Definition dict_get (d : row) (k : string) : value := default VNull (d !! k).
Definition dict_get_or (d : row) (k : string) (dflt : value) : value :=
  default dflt (d !! k).

(** Python truthiness, as used by [if notes:], [if student_id:] ... *)
Definition truthy (v : value) : bool :=
  match v with
  | VNull => false
  | VInt z => negb (z =? 0)
  | VReal f => negb (PrimFloat.eqb f 0%float)
  | VText s => negb (String.eqb s EmptyString)
  end.

(** An optional integer id ([None] or an [int]) as a bound parameter. *)
Definition of_id (i : option Z) : value :=
  match i with Some z => VInt z | None => VNull end.

Definition of_text (s : option string) : value :=
  match s with Some t => VText t | None => VNull end.

(** [column = ?] in a WHERE clause, for an integer parameter: true only when
    the column holds that integer; NULL on either side is never equal. *)
Definition sql_eq_int (v : value) (p : option Z) : bool :=
  match v, p with
  | VInt a, Some b => a =? b
  | _, _ => false
  end.

(** [column = ?] for a text parameter. *)
Definition sql_eq_text (v : value) (p : string) : bool :=
  match v with
  | VText a => String.eqb a p
  | _ => false
  end.

Definition nl : string := String "010"%char EmptyString.
Definition dquote : string := String "034"%char EmptyString.

(** ** The store *)

Inductive table_name :=
  | Students | Advisors | InterventionTypes | RiskScores
  | Interventions | Notifications | AuditLogs.

Record DB := mkDB {
  students : table;
  advisors : table;
  intervention_types : table;
  risk_scores : table;
  interventions : table;
  notifications : table;
  audit_logs : table
}.

Definition get_table (tn : table_name) (db : DB) : table :=
  match tn with
  | Students => students db
  | Advisors => advisors db
  | InterventionTypes => intervention_types db
  | RiskScores => risk_scores db
  | Interventions => interventions db
  | Notifications => notifications db
  | AuditLogs => audit_logs db
  end.

Definition set_table (tn : table_name) (t : table) (db : DB) : DB :=
  match tn with
  | Students => mkDB t (advisors db) (intervention_types db) (risk_scores db) (interventions db) (notifications db) (audit_logs db)
  | Advisors => mkDB (students db) t (intervention_types db) (risk_scores db) (interventions db) (notifications db) (audit_logs db)
  | InterventionTypes => mkDB (students db) (advisors db) t (risk_scores db) (interventions db) (notifications db) (audit_logs db)
  | RiskScores => mkDB (students db) (advisors db) (intervention_types db) t (interventions db) (notifications db) (audit_logs db)
  | Interventions => mkDB (students db) (advisors db) (intervention_types db) (risk_scores db) t (notifications db) (audit_logs db)
  | Notifications => mkDB (students db) (advisors db) (intervention_types db) (risk_scores db) (interventions db) t (audit_logs db)
  | AuditLogs => mkDB (students db) (advisors db) (intervention_types db) (risk_scores db) (interventions db) (notifications db) t
  end.

(** What the code takes from outside the repository's Python sources.
    [schema.sql] is executed by [create_tables] but is not part of the
    sources at hand, so the constraints it declares (NOT NULL, CHECK,
    FOREIGN KEY under [PRAGMA foreign_keys = ON]) and its column lists are
    parameters; so are the library functions [repr] on floats,
    [json.dumps], SQLite's rendering of a REAL as text and its ORDER BY
    comparison. *)
Record Platform := mkPlatform {
  columns : table_name → gset string;
  row_ok : table_name → DB → row → bool;
  repr_float : float → string;
  json_dumps : row → string;
  sql_real_text : float → string;
  sql_le : value → value → bool
}.

(** ** Exceptions and the state monad of the store *)

(** [IntegrityError] and [OperationalError] are sqlite3's.  The last two are
    the error classes of the specification's taxonomy. *)
Inductive exn :=
  | IntegrityError
  | OperationalError
  | ValidationError
  | InvalidTransitionError.

Inductive result (A : Type) :=
  | Return (a : A)
  | Raise (e : exn).
Arguments Return {A} a.
Arguments Raise {A} e.

(** A computation runs against the store and leaves a store behind also when
    it raises: statements committed by an earlier connection stay. *)
Definition M (A : Type) : Type := DB → result A * DB.

#[global] Instance M_ret : MRet M := λ A a db, (Return a, db).
#[global] Instance M_bind : MBind M := λ A B f m db,
  match m db with
  | (Return a, db') => f a db'
  | (Raise e, db') => (Raise e, db')
  end.

Definition raise {A} (e : exn) : M A := λ db, (Raise e, db).
Definition read {A} (f : DB → A) : M A := λ db, (Return (f db), db).

(** [cursor.lastrowid] after an INSERT: SQLite gives a new row the largest
    rowid in the table plus one (1 in an empty table). *)
Definition max_rowid (t : table) : Z := foldr Z.max 0 (map_to_list t).*1.
Definition next_rowid (t : table) : Z := 1 + max_rowid t.

Module DatabaseManager.
Section with_platform.
Context (pf : Platform).

(** [with self.get_connection() as conn:] - the body runs in one
    transaction: committed when it returns, rolled back (and the exception
    raised again) when it raises. *)
Definition get_connection {A} (body : M A) : M A := λ db,
  match body db with
  | (Return a, db') => (Return a, db')
  | (Raise e, _) => (Raise e, db)
  end.

(** [cursor.execute("INSERT INTO tn (...) VALUES (...)")]; the result is
    [cursor.lastrowid]. *)
Definition execute_insert (tn : table_name) (r : row) : M Z := λ db,
  if bool_decide (dom r ⊆ columns pf tn) then
    if row_ok pf tn db r then
      let k := next_rowid (get_table tn db) in
      (Return k, set_table tn (<[k := r]> (get_table tn db)) db)
    else (Raise IntegrityError, db)
  else (Raise OperationalError, db).

(** [cursor.execute("UPDATE tn SET ... WHERE ...")]: every row selected by
    [where_] is replaced by its image under [set_]; the statement fails as
    a whole when a new row violates a constraint. *)
Definition execute_update (tn : table_name) (where_ : Z → row → bool)
    (assigned : gset string) (set_ : row → row) : M unit := λ db,
  let t := get_table tn db in
  if bool_decide (assigned ⊆ columns pf tn) then
    if bool_decide (map_Forall (λ k r, where_ k r = true → row_ok pf tn db (set_ r) = true) t) then
      (Return (), set_table tn (map_imap (λ k r, Some (if where_ k r then set_ r else r)) t) db)
    else (Raise IntegrityError, db)
  else (Raise OperationalError, db).

(** *** Risk scores *)

Definition risk_score_row (now : string) (student_id term_id : option Z)
    (overall_risk_score : value) (kwargs : row) : row :=
  {[ "student_id" := of_id student_id;
     "term_id" := of_id term_id;
     "score_calculation_date" := VText now;
     "overall_risk_score" := overall_risk_score;
     "academic_risk_factor" := dict_get kwargs "academic_risk_factor";
     "engagement_risk_factor" := dict_get kwargs "engagement_risk_factor";
     "financial_risk_factor" := dict_get kwargs "financial_risk_factor";
     "wellness_risk_factor" := dict_get kwargs "wellness_risk_factor";
     "risk_category" := dict_get kwargs "risk_category";
     "risk_pathway" := dict_get kwargs "risk_pathway";
     "confidence_score" := dict_get kwargs "confidence_score";
     "model_version" := dict_get_or kwargs "model_version" (VText "v1.0");
     "is_current" := VInt 1 ]}.

(** [WHERE student_id = ? AND term_id = ?] *)
Definition same_student_term (student_id term_id : option Z) (r : row) : bool :=
  sql_eq_int (dict_get r "student_id") student_id
  && sql_eq_int (dict_get r "term_id") term_id.

(** [create_risk_score(student_id, term_id, overall_risk_score, **kwargs)];
    [now] is the store's CURRENT_TIMESTAMP. *)
Definition create_risk_score (now : string) (student_id term_id : option Z)
    (overall_risk_score : value) (kwargs : row) : M Z :=
  get_connection (
    execute_update RiskScores
      (λ _ r, same_student_term student_id term_id r)
      {[ "is_current" ]}
      (λ r, <["is_current" := VInt 0]> r);;
    risk_score_id ← execute_insert RiskScores
      (risk_score_row now student_id term_id overall_risk_score kwargs);
    mret risk_score_id).

(** *** Students *)

(** [SELECT * FROM tn WHERE <primary key> = ?] followed by [dict(row)]:
    the row with its primary-key column. *)
Definition select_by_key (tn : table_name) (pk : string) (key : option Z) (db : DB)
    : option row :=
  k ← key; r ← get_table tn db !! k; Some (<[pk := VInt k]> r).

(** [get_student_by_id(student_id)] *)
Definition get_student_by_id (student_id : option Z) : M (option row) :=
  get_connection (read (select_by_key Students "student_id" student_id)).

(** *** Interventions *)

(** The values bound by the INSERT of [create_intervention]. *)
Definition intervention_row (student_id advisor_id : option Z) (title : value)
    (kwargs : row) : row :=
  {[ "student_id" := of_id student_id;
     "advisor_id" := of_id advisor_id;
     "intervention_type_id" := dict_get kwargs "intervention_type_id";
     "title" := title;
     "description" := dict_get kwargs "description";
     "priority" := dict_get_or kwargs "priority" (VText "Medium");
     "status" := dict_get_or kwargs "status" (VText "Scheduled");
     "scheduled_date" := dict_get kwargs "scheduled_date";
     "location" := dict_get kwargs "location";
     "method" := dict_get_or kwargs "method" (VText "In-person");
     "follow_up_required" := dict_get_or kwargs "follow_up_required" (VInt 0);
     "notes" := dict_get kwargs "notes" ]}.

(** [create_intervention(student_id, advisor_id, title, **kwargs)] *)
Definition create_intervention (student_id advisor_id : option Z) (title : value)
    (kwargs : row) : M Z :=
  get_connection (
    intervention_id ← execute_insert Interventions
      (intervention_row student_id advisor_id title kwargs);
    mret intervention_id).

(** SQL [a || b]: NULL when an operand is NULL, otherwise the operands as
    text, concatenated. *)
Definition sql_text (v : value) : option string :=
  match v with
  | VNull => None
  | VInt z => Some (pretty z)
  | VReal f => Some (sql_real_text pf f)
  | VText s => Some s
  end.
Definition sql_concat (a b : value) : value :=
  match sql_text a, sql_text b with
  | Some x, Some y => VText (x ++ y)
  | _, _ => VNull
  end.

Definition as_id (v : value) : option Z :=
  match v with VInt z => Some z | _ => None end.

(** The text and the parameters of the query [get_interventions] builds. *)
Definition get_interventions_query (student_id advisor_id : option Z)
    (status : option string) : string * list value :=
  let query := "SELECT i.*, s.first_name || ' ' || s.last_name as student_name FROM interventions i JOIN students s ON i.student_id = s.student_id WHERE 1=1" in
  let params : list value := [] in
  let '(query, params) :=
    if truthy (of_id student_id)
    then (query ++ " AND i.student_id = ?", (params ++ [of_id student_id])%list)
    else (query, params) in
  let '(query, params) :=
    if truthy (of_id advisor_id)
    then (query ++ " AND i.advisor_id = ?", (params ++ [of_id advisor_id])%list)
    else (query, params) in
  let '(query, params) :=
    if truthy (of_text status)
    then (query ++ " AND i.status = ?", (params ++ [of_text status])%list)
    else (query, params) in
  (query ++ " ORDER BY i.scheduled_date DESC", params).

(** The WHERE clause of that query on one row of [interventions]. *)
Definition get_interventions_where (student_id advisor_id : option Z)
    (status : option string) (i : row) : bool :=
  (if truthy (of_id student_id)
   then sql_eq_int (dict_get i "student_id") student_id else true)
  && (if truthy (of_id advisor_id)
      then sql_eq_int (dict_get i "advisor_id") advisor_id else true)
  && (if truthy (of_text status)
      then sql_eq_text (dict_get i "status") (default EmptyString status) else true).

(** One row of the result: [i.*] joined with its student, or nothing when
    the row has no student to join or fails the WHERE clause. *)
Definition get_interventions_row (db : DB) (student_id advisor_id : option Z)
    (status : option string) (ki : Z * row) : option row :=
  s ← select_by_key Students "student_id" (as_id (dict_get ki.2 "student_id")) db;
  if get_interventions_where student_id advisor_id status ki.2
  then Some (<["student_name" :=
                 sql_concat (sql_concat (dict_get s "first_name") (VText " "))
                            (dict_get s "last_name")]>
             (<["intervention_id" := VInt ki.1]> ki.2))
  else None.

(** [ORDER BY i.scheduled_date DESC] *)
Definition scheduled_date_desc (r1 r2 : row) : Prop :=
  sql_le pf (dict_get r2 "scheduled_date") (dict_get r1 "scheduled_date") = true.

#[local] Instance scheduled_date_desc_dec (r1 r2 : row) :
    Decision (scheduled_date_desc r1 r2) :=
  decide (sql_le pf (dict_get r2 "scheduled_date") (dict_get r1 "scheduled_date") = true).

(** [get_interventions(student_id=None, advisor_id=None, status=None)] *)
Definition get_interventions (student_id advisor_id : option Z)
    (status : option string) : M (list row) :=
  get_connection (read (λ db,
    merge_sort scheduled_date_desc
      (omap (get_interventions_row db student_id advisor_id status)
            (map_to_list (interventions db))))).

(** [SET k1 = ?, ..., updated_at = CURRENT_TIMESTAMP] on one row: the
    keyword arguments over the old columns, then the timestamp. *)
Definition updated_row (now : string) (kwargs : row) (r : row) : row :=
  <["updated_at" := VText now]> (kwargs ∪ r).

(** [WHERE intervention_id = ?] on the key of a row. *)
Definition key_is (intervention_id : option Z) (k : Z) : bool :=
  match intervention_id with Some i => k =? i | None => false end.

(** [update_intervention(intervention_id, **kwargs)]; [now] is the store's
    CURRENT_TIMESTAMP.  With no keyword argument the statement reads
    [SET , updated_at = ...] and does not parse. *)
Definition update_intervention (now : string) (intervention_id : option Z)
    (kwargs : row) : M unit :=
  get_connection (
    if bool_decide (kwargs = ∅) then raise OperationalError
    else execute_update Interventions
           (λ k _, key_is intervention_id k)
           (dom kwargs ∪ {[ "updated_at" ]})
           (updated_row now kwargs)).

(** *** Notifications *)

(** The values bound by the INSERT of [create_notification]. *)
Definition notification_row (user_id notification_type title message : value)
    (kwargs : row) : row :=
  {[ "user_id" := user_id;
     "notification_type" := notification_type;
     "title" := title;
     "message" := message;
     "priority" := dict_get_or kwargs "priority" (VText "Normal");
     "action_url" := dict_get kwargs "action_url";
     "action_label" := dict_get kwargs "action_label";
     "related_entity_type" := dict_get kwargs "related_entity_type";
     "related_entity_id" := dict_get kwargs "related_entity_id" ]}.

(** [create_notification(user_id, notification_type, title, message, **kwargs)] *)
Definition create_notification (user_id notification_type title message : value)
    (kwargs : row) : M Z :=
  get_connection (
    notification_id ← execute_insert Notifications
      (notification_row user_id notification_type title message kwargs);
    mret notification_id).

(** *** Audit logs *)

(** [json.dumps(d) if d else None] *)
Definition dumps_if (d : option row) : value :=
  match d with
  | Some d => if bool_decide (d = ∅) then VNull else VText (json_dumps pf d)
  | None => VNull
  end.

(** The values bound by the INSERT of [log_action]. *)
Definition audit_log_row (user_id : option Z) (action entity_type : value)
    (entity_id : option Z) (old_values new_values : option row) : row :=
  {[ "user_id" := of_id user_id;
     "action" := action;
     "entity_type" := entity_type;
     "entity_id" := of_id entity_id;
     "old_values" := dumps_if old_values;
     "new_values" := dumps_if new_values ]}.

(** [log_action(user_id, action, entity_type=None, entity_id=None,
    old_values=None, new_values=None)] *)
Definition log_action (user_id : option Z) (action entity_type : value)
    (entity_id : option Z) (old_values new_values : option row) : M unit :=
  get_connection (
    execute_insert AuditLogs
      (audit_log_row user_id action entity_type entity_id old_values new_values);;
    mret ()).

(** *** Queries on the ledger of risk scores *)

(** [WHERE student_id = ? AND is_current = 1] on one row of [risk_scores];
    the row selected carries its primary key. *)
Definition current_score_row (student_id : option Z) (kr : Z * row) : option row :=
  if sql_eq_int (dict_get kr.2 "student_id") student_id
     && sql_eq_int (dict_get kr.2 "is_current") (Some 1)
  then Some (<["risk_score_id" := VInt kr.1]> kr.2) else None.

(** [WHERE student_id = ?] on one row of [risk_scores]. *)
Definition history_row (student_id : option Z) (kr : Z * row) : option row :=
  if sql_eq_int (dict_get kr.2 "student_id") student_id
  then Some (<["risk_score_id" := VInt kr.1]> kr.2) else None.

(** [ORDER BY score_calculation_date DESC] *)
Definition calculation_date_desc (r1 r2 : row) : Prop :=
  sql_le pf (dict_get r2 "score_calculation_date") (dict_get r1 "score_calculation_date")
  = true.

#[local] Instance calculation_date_desc_dec (r1 r2 : row) :
    Decision (calculation_date_desc r1 r2) :=
  decide (sql_le pf (dict_get r2 "score_calculation_date")
            (dict_get r1 "score_calculation_date") = true).

(** [get_current_risk_score(student_id)]: [LIMIT 1] and [fetchone()] keep the
    first row of the ordered selection. *)
Definition get_current_risk_score (student_id : option Z) : M (option row) :=
  get_connection (read (λ db,
    head (merge_sort calculation_date_desc
            (omap (current_score_row student_id) (map_to_list (risk_scores db)))))).

(** [get_risk_score_history(student_id)] *)
Definition get_risk_score_history (student_id : option Z) : M (list row) :=
  get_connection (read (λ db,
    merge_sort calculation_date_desc
      (omap (history_row student_id) (map_to_list (risk_scores db))))).

(** *** Updating a student *)


(** *** Reading notifications *)

(** [WHERE user_id = ? AND is_read = 0] on one row of [notifications]. *)
Definition unread_row (user_id : option Z) (kr : Z * row) : option row :=
  if sql_eq_int (dict_get kr.2 "user_id") user_id
     && sql_eq_int (dict_get kr.2 "is_read") (Some 0)
  then Some (<["notification_id" := VInt kr.1]> kr.2) else None.

(** [ORDER BY created_at DESC] *)
Definition created_at_desc (r1 r2 : row) : Prop :=
  sql_le pf (dict_get r2 "created_at") (dict_get r1 "created_at") = true.

#[local] Instance created_at_desc_dec (r1 r2 : row) : Decision (created_at_desc r1 r2) :=
  decide (sql_le pf (dict_get r2 "created_at") (dict_get r1 "created_at") = true).

(** [get_unread_notifications(user_id)] *)
Definition get_unread_notifications (user_id : option Z) : M (list row) :=
  get_connection (read (λ db,
    merge_sort created_at_desc
      (omap (unread_row user_id) (map_to_list (notifications db))))).

(** [SET is_read = 1, read_at = CURRENT_TIMESTAMP] on one row. *)
Definition read_row (now : string) (r : row) : row :=
  <["read_at" := VText now]> (<["is_read" := VInt 1]> r).

(** [mark_notification_read(notification_id)]; [now] is the store's
    CURRENT_TIMESTAMP. *)
Definition mark_notification_read (now : string) (notification_id : option Z) : M unit :=
  get_connection (
    execute_update Notifications
      (λ k _, key_is notification_id k)
      {[ "is_read"; "read_at" ]}
      (read_row now)).

End with_platform.
End DatabaseManager.

(** What a method of the intervention manager raises: an exception of the
    store, or Python's [ValueError] with its message. *)
Inductive pyexn :=
  | StoreError (e : exn)
  | ValueError (message : string).

Inductive pyresult (A : Type) :=
  | Returns (a : A)
  | Raises (e : pyexn).
Arguments Returns {A} a.
Arguments Raises {A} e.

Definition PyM (A : Type) : Type := DB → pyresult A * DB.

(** A computation that raises only what the store raises. *)
Definition lift {A} (m : M A) : PyM A := λ db,
  match m db with
  | (Return a, db') => (Returns a, db')
  | (Raise e, db') => (Raises (StoreError e), db')
  end.

(** The two clocks a call reads: [datetime.now().strftime('%Y-%m-%d %H:%M:%S')]
    in the interpreter and CURRENT_TIMESTAMP in the store. *)
Record clock := mkClock {
  py_now : string;
  sql_now : string
}.

Module InterventionManager.
Section with_platform.
Context (pf : Platform).

(** [str(v)], as an f-string renders a value. *)
Definition py_str (v : value) : string :=
  match v with
  | VNull => "None"
  | VInt z => pretty z
  | VReal f => repr_float pf f
  | VText s => s
  end.

(** [v == 'literal'] *)
Definition py_eq_str (v : value) (s : string) : bool :=
  match v with
  | VText a => String.eqb a s
  | _ => false
  end.

(** [a or b] *)
Definition py_or (a b : value) : value := if truthy a then a else b.

(** [create_intervention(student_id, advisor_id, title, description,
    intervention_type_id, priority, scheduled_date, location, method,
    follow_up_required, notes)] *)
Definition create_intervention (student_id advisor_id : option Z)
    (title description intervention_type_id priority scheduled_date
     location method follow_up_required notes : value) : M Z :=
  intervention_id ← DatabaseManager.create_intervention pf student_id advisor_id title
    {[ "description" := description;
       "intervention_type_id" := intervention_type_id;
       "priority" := priority;
       "status" := VText "Scheduled";
       "scheduled_date" := scheduled_date;
       "location" := location;
       "method" := method;
       "follow_up_required" := VInt (if truthy follow_up_required then 1 else 0);
       "notes" := notes ]};
  student ← DatabaseManager.get_student_by_id student_id;
  match student with
  | Some student =>
      if truthy (dict_get student "user_id") then
        DatabaseManager.create_notification pf
          (dict_get student "user_id")
          (VText "intervention_scheduled")
          (VText ("New Intervention Scheduled: " ++ py_str title))
          (VText ("An intervention has been scheduled with your advisor. Date: "
                  ++ py_str (py_or scheduled_date (VText "TBD"))))
          {[ "priority" := priority;
             "related_entity_type" := VText "interventions";
             "related_entity_id" := VInt intervention_id ]};;
        mret ()
      else mret ()
  | None => mret ()
  end;;
  DatabaseManager.log_action pf advisor_id (VText "INTERVENTION_CREATED")
    (VText "interventions") (Some intervention_id) None None;;
  mret intervention_id.

(** [execute_query("SELECT notes FROM interventions WHERE intervention_id = ?",
    [intervention_id])] *)
Definition select_notes (intervention_id : option Z) : M (list row) :=
  DatabaseManager.get_connection (read (λ db,
    match intervention_id ≫= (λ i, interventions db !! i) with
    | Some r => [ {[ "notes" := dict_get r "notes" ]} ]
    | None => []
    end)).

(** The text [update_status] writes into the notes column. *)
Definition status_note (c : clock) (existing_notes new_status notes : value) : string :=
  py_str existing_notes ++ nl ++ nl ++ "[" ++ py_now c ++ "] Status changed to "
  ++ py_str new_status ++ nl ++ py_str notes.

(** [update_status(intervention_id, new_status, notes=None)] *)
Definition update_status (c : clock) (intervention_id : option Z)
    (new_status notes : value) : M bool :=
  let update_data : row := {[ "status" := new_status ]} in
  update_data ←
    (if truthy notes then
       intervention ← select_notes intervention_id;
       match intervention with
       | first :: _ =>
           let existing_notes := dict_get_or first "notes" (VText EmptyString) in
           mret (<["notes" := VText (status_note c existing_notes new_status notes)]>
                   update_data)
       | [] => mret update_data
       end
     else mret update_data);
  let update_data :=
    if py_eq_str new_status "Completed"
    then <["completed_date" := VText (py_now c)]> update_data
    else update_data in
  DatabaseManager.update_intervention pf (sql_now c) intervention_id update_data;;
  DatabaseManager.log_action pf None (VText "INTERVENTION_STATUS_UPDATED")
    (VText "interventions") intervention_id None (Some {[ "status" := new_status ]});;
  mret true.

(** The row [get_intervention_by_id] selects: [i.*] joined with its student
    and its advisor, and left-joined with its intervention type. *)
Definition intervention_details (db : DB) (intervention_id : option Z) : option row :=
  i ← DatabaseManager.select_by_key Interventions "intervention_id" intervention_id db;
  s ← DatabaseManager.select_by_key Students "student_id"
        (DatabaseManager.as_id (dict_get i "student_id")) db;
  a ← DatabaseManager.select_by_key Advisors "advisor_id"
        (DatabaseManager.as_id (dict_get i "advisor_id")) db;
  let it := default ∅ (DatabaseManager.select_by_key InterventionTypes "intervention_type_id"
                         (DatabaseManager.as_id (dict_get i "intervention_type_id")) db) in
  let name (p : row) :=
    DatabaseManager.sql_concat pf
      (DatabaseManager.sql_concat pf (dict_get p "first_name") (VText " "))
      (dict_get p "last_name") in
  Some (<["intervention_category" := dict_get it "category"]>
       (<["intervention_type_name" := dict_get it "type_name"]>
       (<["advisor_email" := dict_get a "email"]>
       (<["advisor_name" := name a]>
       (<["student_classification" := dict_get s "classification"]>
       (<["student_email" := dict_get s "email"]>
       (<["student_name" := name s]> i))))))).

(** [get_intervention_by_id(intervention_id)] *)
Definition get_intervention_by_id (intervention_id : option Z) : M (option row) :=
  DatabaseManager.get_connection (read (λ db, intervention_details db intervention_id)).

(** [complete_intervention(intervention_id, outcome_assessment, success_rating,
    student_response=None, duration_minutes=None)] *)
Definition complete_intervention (c : clock) (intervention_id : option Z)
    (outcome_assessment success_rating student_response duration_minutes : value)
    : M bool :=
  DatabaseManager.update_intervention pf (sql_now c) intervention_id
    {[ "status" := VText "Completed";
       "completed_date" := VText (py_now c);
       "outcome_assessment" := outcome_assessment;
       "success_rating" := success_rating;
       "student_response" := student_response;
       "duration_minutes" := duration_minutes ]};;
  intervention ← get_intervention_by_id intervention_id;
  match intervention with
  | Some intervention =>
      student ← DatabaseManager.get_student_by_id
                  (DatabaseManager.as_id (dict_get intervention "student_id"));
      match student with
      | Some student =>
          if truthy (dict_get student "user_id") then
            DatabaseManager.create_notification pf
              (dict_get student "user_id")
              (VText "intervention_completed")
              (VText "Intervention Completed")
              (VText ("Your intervention " ++ dquote
                      ++ py_str (dict_get intervention "title") ++ dquote
                      ++ " has been completed. Please check the outcome notes."))
              {[ "related_entity_type" := VText "interventions";
                 "related_entity_id" := of_id intervention_id ]};;
            mret ()
          else mret ()
      | None => mret ()
      end
  | None => mret ()
  end;;
  mret true.

(** [schedule_follow_up(intervention_id, follow_up_date, notes=None)] *)
Definition schedule_follow_up (c : clock) (intervention_id : option Z)
    (follow_up_date notes : value) : M bool :=
  DatabaseManager.update_intervention pf (sql_now c) intervention_id
    {[ "follow_up_required" := VInt 1;
       "follow_up_date" := follow_up_date;
       "notes" := notes ]};;
  mret true.

(** *** Retrieving interventions *)

(** [get_interventions_for_student(student_id, status=None)] *)
Definition get_interventions_for_student (student_id : option Z)
    (status : option string) : M (list row) :=
  DatabaseManager.get_interventions pf student_id None status.

(** [get_interventions_for_advisor(advisor_id, status=None)] *)
Definition get_interventions_for_advisor (advisor_id : option Z)
    (status : option string) : M (list row) :=
  DatabaseManager.get_interventions pf None advisor_id status.

(** [s.first_name || ' ' || s.last_name] *)
Definition full_name (s : row) : value :=
  DatabaseManager.sql_concat pf
    (DatabaseManager.sql_concat pf (dict_get s "first_name") (VText " "))
    (dict_get s "last_name").

(** [AND i.advisor_id = ?], appended [if advisor_id:]. *)
Definition advisor_clause (advisor_id : option Z) (i : row) : bool :=
  if truthy (of_id advisor_id)
  then sql_eq_int (dict_get i "advisor_id") advisor_id else true.

(** [column < ?] and [column <= ?] against a text: NULL compares to nothing,
    a number sorts before any text, two texts compare byte by byte. *)
Definition sql_lt_text (v : value) (s : string) : bool :=
  match v with
  | VNull => false
  | VInt _ | VReal _ => true
  | VText a => String.ltb a s
  end.
Definition sql_le_text (v : value) (s : string) : bool :=
  match v with
  | VNull => false
  | VInt _ | VReal _ => true
  | VText a => String.leb a s
  end.

(** [i.*] joined with its student, with the [student_name] column. *)
Definition with_student_name (db : DB) (ki : Z * row) : option row :=
  s ← DatabaseManager.select_by_key Students "student_id"
         (DatabaseManager.as_id (dict_get ki.2 "student_id")) db;
  Some (<["student_name" := full_name s]> (<["intervention_id" := VInt ki.1]> ki.2)).

(** One row of [get_overdue_interventions]; [today] is the store's
    [date('now')]. *)
Definition overdue_row (db : DB) (today : string) (advisor_id : option Z)
    (ki : Z * row) : option row :=
  r ← with_student_name db ki;
  if sql_eq_text (dict_get ki.2 "status") "Scheduled"
     && sql_lt_text (dict_get ki.2 "scheduled_date") today
     && advisor_clause advisor_id ki.2
  then Some r else None.

(** [get_overdue_interventions(advisor_id=None)]; the query has no ORDER BY,
    the rows come as the table is scanned. *)
Definition get_overdue_interventions (today : string) (advisor_id : option Z)
    : M (list row) :=
  DatabaseManager.get_connection (read (λ db,
    omap (overdue_row db today advisor_id) (map_to_list (interventions db)))).

(** One row of [get_follow_ups_due]; [horizon] is the store's
    [date('now', '+7 days')]. *)
Definition follow_up_due_row (db : DB) (horizon : string) (advisor_id : option Z)
    (ki : Z * row) : option row :=
  r ← with_student_name db ki;
  if sql_eq_int (dict_get ki.2 "follow_up_required") (Some 1)
     && sql_le_text (dict_get ki.2 "follow_up_date") horizon
     && sql_eq_text (dict_get ki.2 "status") "Completed"
     && advisor_clause advisor_id ki.2
  then Some r else None.

(** [get_follow_ups_due(advisor_id=None)] *)
Definition get_follow_ups_due (horizon : string) (advisor_id : option Z)
    : M (list row) :=
  DatabaseManager.get_connection (read (λ db,
    omap (follow_up_due_row db horizon advisor_id) (map_to_list (interventions db)))).

(** [LEFT JOIN risk_scores rs ON s.student_id = rs.student_id AND
    rs.is_current = 1]: the current scores of the student with key [sk]. *)
Definition current_scores_of (db : DB) (sk : Z) : list row :=
  omap (λ kr : Z * row,
          if sql_eq_int (dict_get kr.2 "student_id") (Some sk)
             && sql_eq_int (dict_get kr.2 "is_current") (Some 1)
          then Some kr.2 else None)
       (map_to_list (risk_scores db)).

(** The rows [get_pending_interventions] selects for one intervention: one
    per current score of its student, or one with NULL scores when the
    student has none. *)
Definition pending_rows (db : DB) (advisor_id : option Z) (ki : Z * row) : list row :=
  match DatabaseManager.as_id (dict_get ki.2 "student_id") with
  | Some sk =>
      match students db !! sk with
      | Some s =>
          if (sql_eq_text (dict_get ki.2 "status") "Scheduled"
              || sql_eq_text (dict_get ki.2 "status") "In Progress")
             && advisor_clause advisor_id ki.2
          then
            let base : row :=
              <["student_classification" := dict_get s "classification"]>
                (<["student_name" := full_name s]>
                   (<["intervention_id" := VInt ki.1]> ki.2)) in
            let joined (rs : row) : row :=
              <["risk_category" := dict_get rs "risk_category"]>
                (<["overall_risk_score" := dict_get rs "overall_risk_score"]> base) in
            match current_scores_of db sk with
            | [] => [joined ∅]
            | scores => joined <$> scores
            end
          else []
      | None => []
      end
  | None => []
  end.

(** [ORDER BY i.priority DESC, i.scheduled_date ASC] *)
Definition pending_order (r1 r2 : row) : Prop :=
  (if sql_le pf (dict_get r2 "priority") (dict_get r1 "priority")
   then if sql_le pf (dict_get r1 "priority") (dict_get r2 "priority")
        then sql_le pf (dict_get r1 "scheduled_date") (dict_get r2 "scheduled_date")
        else true
   else false) = true.

#[local] Instance pending_order_dec (r1 r2 : row) : Decision (pending_order r1 r2) :=
  decide ((if sql_le pf (dict_get r2 "priority") (dict_get r1 "priority")
           then if sql_le pf (dict_get r1 "priority") (dict_get r2 "priority")
                then sql_le pf (dict_get r1 "scheduled_date") (dict_get r2 "scheduled_date")
                else true
           else false) = true).

(** [get_pending_interventions(advisor_id=None)] *)
Definition get_pending_interventions (advisor_id : option Z) : M (list row) :=
  DatabaseManager.get_connection (read (λ db,
    merge_sort pending_order
      (map_to_list (interventions db) ≫= pending_rows db advisor_id))).

(** *** Templates and bulk creation *)

(** [create_from_template(student_id, advisor_id, template_id,
    scheduled_date=None)]: [ValueError] when no intervention type has the
    id, else [create_intervention] with the template's name, description and
    default priority (location and notes [None], follow-up [False]). *)
Definition create_from_template (student_id advisor_id template_id : option Z)
    (scheduled_date : value) : PyM Z := λ db,
  match DatabaseManager.select_by_key InterventionTypes "intervention_type_id"
          template_id db with
  | None => (Raises (ValueError "Template not found"), db)
  | Some template =>
      lift (create_intervention student_id advisor_id
              (dict_get template "type_name") (dict_get template "description")
              (of_id template_id) (dict_get template "default_priority")
              scheduled_date VNull (VText "In-person") (VInt 0) VNull) db
  end.



End with_platform.
End InterventionManager.

(** The categorisation branch of the ML predictions page
    ([pages/6_ML_Predictions.py]). *)
Module MLPredictions.


End MLPredictions.

(** ** A platform for closed examples *)

(** The columns the SQL statements of the sources name, per table written
    by the code modelled here. *)
Definition source_columns (tn : table_name) : gset string :=
  match tn with
  | RiskScores =>
      list_to_set ["student_id"; "term_id"; "score_calculation_date";
        "overall_risk_score"; "academic_risk_factor"; "engagement_risk_factor";
        "financial_risk_factor"; "wellness_risk_factor"; "risk_category";
        "risk_pathway"; "confidence_score"; "model_version"; "is_current"]
  | Interventions =>
      list_to_set ["student_id"; "advisor_id"; "intervention_type_id"; "title";
        "description"; "priority"; "status"; "scheduled_date"; "location";
        "method"; "follow_up_required"; "notes"; "completed_date";
        "outcome_assessment"; "success_rating"; "student_response";
        "duration_minutes"; "follow_up_date"; "created_at"; "updated_at"]
  | Notifications =>
      list_to_set ["user_id"; "notification_type"; "title"; "message";
        "priority"; "action_url"; "action_label"; "related_entity_type";
        "related_entity_id"; "is_read"; "read_at"; "created_at"]
  | AuditLogs =>
      list_to_set ["user_id"; "action"; "entity_type"; "entity_id";
        "old_values"; "new_values"]
  | Students =>
      list_to_set ["user_id"; "first_name"; "last_name"; "email"; "classification"]
  | Advisors => list_to_set ["first_name"; "last_name"; "email"]
  | InterventionTypes =>
      list_to_set ["type_name"; "category"; "description"; "default_priority";
        "is_active"]
  end.

(** Modelled from the spec: [schema.sql] is missing; section 4.1 says that
    foreign-key integrity is enforced, and that a risk assessment or an
    intervention referencing a nonexistent student fails the write.  No
    other constraint is stated. *)
Definition references_student (tn : table_name) (db : DB) (r : row) : bool :=
  match tn with
  | RiskScores | Interventions =>
      match dict_get r "student_id" with
      | VInt k => bool_decide (is_Some (students db !! k))
      | _ => false
      end
  | _ => true
  end.

(** [json.dumps] on a dictionary of integers, NULLs and of text that needs
    no escaping; entries in the order of the keys. *)
Definition example_json_value (v : value) : string :=
  match v with
  | VNull => "null"
  | VInt z => pretty z
  | VReal _ => "NaN"
  | VText s => dquote ++ s ++ dquote
  end.
Definition example_json_dumps (d : row) : string :=
  "{" ++ String.concat ", "
           (map (λ kv : string * value,
                   dquote ++ kv.1 ++ dquote ++ ": " ++ example_json_value kv.2)
                (map_to_list d)) ++ "}".

(** SQLite's order of storage classes, NULL first, then numbers, then text;
    integers and text compared within their class. *)
Definition example_sql_le (a b : value) : bool :=
  match a, b with
  | VNull, _ => true
  | _, VNull => false
  | VInt x, VInt y => x <=? y
  | VReal x, VReal y => PrimFloat.leb x y
  | (VInt _ | VReal _), _ => true
  | VText _, (VInt _ | VReal _) => false
  | VText x, VText y => String.leb x y
  end.

(** The examples below render no float. *)
Definition example_platform : Platform :=
  mkPlatform source_columns references_student
    (λ _, "nan") example_json_dumps (λ _, "NaN") example_sql_le.

(** ** Vocabulary of the properties *)

(** [UPDATE risk_scores SET is_current = 0 WHERE student_id = ? AND term_id = ?]
    on one row. *)
Definition supersede (student_id term_id : option Z) (r : row) : row :=
  if DatabaseManager.same_student_term student_id term_id r
  then <["is_current" := VInt 0]> r else r.

(** A row of the ledger that is current for student [s] in term [t]. *)
Definition is_current_for (s t : Z) (r : row) : bool :=
  DatabaseManager.same_student_term (Some s) (Some t) r
  && sql_eq_int (dict_get r "is_current") (Some 1).

Definition current_rows (s t : Z) (db : DB) : table :=
  filter (λ kr : Z * row, is_current_for s t kr.2 = true) (risk_scores db).

Definition current_count (s t : Z) (db : DB) : nat := size (current_rows s t db).

(** One call of [create_risk_score]. *)
Record risk_call := mkRiskCall {
  rc_now : string;
  rc_student : option Z;
  rc_term : option Z;
  rc_score : value;
  rc_kwargs : row
}.

Definition record_assessment (pf : Platform) (c : risk_call) : M Z :=
  DatabaseManager.create_risk_score pf (rc_now c) (rc_student c) (rc_term c)
    (rc_score c) (rc_kwargs c).

(** A sequence of calls, each on the store the previous one left; a caller
    that catches the exception of a failed call goes on with the next. *)
Fixpoint run_calls (pf : Platform) (cs : list risk_call) (db : DB)
    : list (result Z) * DB :=
  match cs with
  | [] => ([], db)
  | c :: cs =>
      let '(r, db1) := record_assessment pf c db in
      let '(rs, db2) := run_calls pf cs db1 in
      (r :: rs, db2)
  end.

Definition returned {A} (r : result A) : bool :=
  match r with Return _ => true | Raise _ => false end.



(** The exceptions the store raises. *)
Definition sqlite_error (e : exn) : Prop := e = IntegrityError ∨ e = OperationalError.

(** The store after a committed [update_intervention]. *)
Definition with_update (now : string) (intervention_id : option Z) (kwargs : row)
    (db : DB) : DB :=
  match intervention_id with
  | Some i =>
      set_table Interventions
        (alter (DatabaseManager.updated_row now kwargs) i (interventions db)) db
  | None => db
  end.

(** The store after a committed INSERT of [r] into [tn]. *)
Definition with_insert (tn : table_name) (r : row) (db : DB) : DB :=
  set_table tn (<[next_rowid (get_table tn db) := r]> (get_table tn db)) db.

(** A column of the intervention stored under id [i], if there is one. *)
Definition column_of (db : DB) (i : Z) (c : string) : option value :=
  (λ r : row, dict_get r c) <$> interventions db !! i.

(** The intervention [WHERE intervention_id = ?] selects, if any. *)
Definition lookup_intervention (db : DB) (intervention_id : option Z) : option row :=
  intervention_id ≫= (λ i, interventions db !! i).

(** The dictionary [update_status] hands to [update_intervention], given the
    intervention its SELECT found. *)
Definition status_update_data (pf : Platform) (c : clock) (found : option row)
    (new_status notes : value) : row :=
  let d : row := {[ "status" := new_status ]} in
  let d :=
    match found with
    | Some r =>
        if truthy notes
        then <["notes" := VText (InterventionManager.status_note pf c
                                   (dict_get r "notes") new_status notes)]> d
        else d
    | None => d
    end in
  if InterventionManager.py_eq_str new_status "Completed"
  then <["completed_date" := VText (py_now c)]> d else d.

(** The audit row [update_status] logs. *)
Definition status_audit_row (pf : Platform) (intervention_id : option Z)
    (new_status : value) : row :=
  DatabaseManager.audit_log_row pf None (VText "INTERVENTION_STATUS_UPDATED")
    (VText "interventions") intervention_id None (Some {[ "status" := new_status ]}).

(** The dictionary [complete_intervention] hands to [update_intervention]. *)
Definition completion_data (c : clock)
    (outcome_assessment success_rating student_response duration_minutes : value) : row :=
  {[ "status" := VText "Completed";
     "completed_date" := VText (py_now c);
     "outcome_assessment" := outcome_assessment;
     "success_rating" := success_rating;
     "student_response" := student_response;
     "duration_minutes" := duration_minutes ]}.

(** The dictionary [schedule_follow_up] hands to [update_intervention]. *)
Definition follow_up_data (follow_up_date notes : value) : row :=
  {[ "follow_up_required" := VInt 1;
     "follow_up_date" := follow_up_date;
     "notes" := notes ]}.

(** The keyword arguments [InterventionManager.create_intervention] hands to
    [DatabaseManager.create_intervention]. *)
Definition creation_kwargs (description intervention_type_id priority scheduled_date
    location method follow_up_required notes : value) : row :=
  {[ "description" := description;
     "intervention_type_id" := intervention_type_id;
     "priority" := priority;
     "status" := VText "Scheduled";
     "scheduled_date" := scheduled_date;
     "location" := location;
     "method" := method;
     "follow_up_required" := VInt (if truthy follow_up_required then 1 else 0);
     "notes" := notes ]}.

(** The audit row [create_intervention] logs for the intervention [k]. *)
Definition creation_audit_row (pf : Platform) (advisor_id : option Z) (k : Z) : row :=
  DatabaseManager.audit_log_row pf advisor_id (VText "INTERVENTION_CREATED")
    (VText "interventions") (Some k) None None.

(** ** A store and calls for closed examples *)

(** One student (id 42, with the user account 1042) and one advisor (id 7);
    every other table is empty. *)
Definition example_db : DB :=
  mkDB {[ 42 := {[ "user_id" := VInt 1042; "first_name" := VText "Ada";
                   "last_name" := VText "Byron"; "email" := VText "ada@hsu.edu";
                   "classification" := VText "Junior" ]} ]}
       {[ 7 := {[ "first_name" := VText "Sarah"; "last_name" := VText "Johnson";
                  "email" := VText "advisor@hsu.edu" ]} ]}
       ∅ ∅ ∅ ∅ ∅.

Definition example_clock : clock := mkClock "2025-03-01 10:00:00" "2025-03-01 16:00:00".

(** The store a computation leaves, and what it returned or raised. *)
Definition exec {A} (m : M A) (db : DB) : DB := (m db).2.
Definition outcome {A} (m : M A) (db : DB) : result A := (m db).1.

(** [create_intervention(student_id=42, advisor_id=7, title="Academic Check-In",
    description="Check-in", priority="High")] on the example store. *)
Definition example_created : DB :=
  exec (InterventionManager.create_intervention example_platform (Some 42) (Some 7)
          (VText "Academic Check-In") (VText "Check-in") VNull (VText "High")
          VNull VNull (VText "In-person") (VInt 0) VNull) example_db.

(** ... then [update_status(1, "Cancelled")]. *)
Definition example_cancelled : DB :=
  exec (InterventionManager.update_status example_platform example_clock (Some 1)
          (VText "Cancelled") VNull) example_created.


(** A column of the ledger row stored under id [k], if there is one. *)
Definition risk_column_of (db : DB) (k : Z) (c : string) : option value :=
  (λ r : row, dict_get r c) <$> risk_scores db !! k.

(** A column of the audit row stored under id [k], if there is one. *)
Definition audit_column_of (db : DB) (k : Z) (c : string) : option value :=
  (λ r : row, dict_get r c) <$> audit_logs db !! k.

(** The store takes an INSERT of [r] into [tn]: [r] names columns of the
    table only and breaks no constraint. *)
Definition store_accepts_insert (pf : Platform) (tn : table_name) (r : row)
    (db : DB) : Prop :=
  dom r ⊆ columns pf tn ∧ row_ok pf tn db r = true.

(** The store takes the UPDATE of [update_intervention]: there is a column to
    set, the columns set are columns of the table, and the row selected, if
    any, breaks no constraint once updated. *)
Definition store_accepts_update (pf : Platform) (now : string)
    (intervention_id : option Z) (kwargs : row) (db : DB) : Prop :=
  kwargs ≠ ∅
  ∧ dom kwargs ∪ {[ "updated_at" ]} ⊆ columns pf Interventions
  ∧ map_Forall (λ (k : Z) (r : row),
       DatabaseManager.key_is intervention_id k = true →
       row_ok pf Interventions db (DatabaseManager.updated_row now kwargs r) = true)
      (interventions db).

(** The store takes the two statements of [update_status]: the UPDATE of the
    intervention and then the INSERT of the audit row. *)
Definition store_accepts_status_update (pf : Platform) (c : clock)
    (intervention_id : option Z) (new_status notes : value) (db : DB) : Prop :=
  let data := status_update_data pf c (lookup_intervention db intervention_id)
                new_status notes in
  store_accepts_update pf (sql_now c) intervention_id data db
  ∧ store_accepts_insert pf AuditLogs (status_audit_row pf intervention_id new_status)
      (with_update (sql_now c) intervention_id data db).

(** The notification [complete_intervention] sends on the store [db] the
    UPDATE left, if it sends one: the intervention joins a student and an
    advisor, and the student has a user account. *)
Definition completion_notification (pf : Platform) (intervention_id : option Z)
    (db : DB) : option row :=
  intervention ← InterventionManager.intervention_details pf db intervention_id;
  student ← DatabaseManager.select_by_key Students "student_id"
              (DatabaseManager.as_id (dict_get intervention "student_id")) db;
  if truthy (dict_get student "user_id") then
    Some (DatabaseManager.notification_row
            (dict_get student "user_id")
            (VText "intervention_completed")
            (VText "Intervention Completed")
            (VText ("Your intervention " ++ dquote
                    ++ InterventionManager.py_str pf (dict_get intervention "title")
                    ++ dquote ++ " has been completed. Please check the outcome notes."))
            {[ "related_entity_type" := VText "interventions";
               "related_entity_id" := of_id intervention_id ]})
  else None.

(** The store takes the statements of [complete_intervention]: the UPDATE of
    the intervention and then the INSERT of the notification, if one is
    sent. *)
Definition store_accepts_completion (pf : Platform) (c : clock)
    (intervention_id : option Z)
    (outcome_assessment success_rating student_response duration_minutes : value)
    (db : DB) : Prop :=
  let data := completion_data c outcome_assessment success_rating student_response
                duration_minutes in
  store_accepts_update pf (sql_now c) intervention_id data db
  ∧ match completion_notification pf intervention_id
            (with_update (sql_now c) intervention_id data db) with
    | Some n =>
        store_accepts_insert pf Notifications n
          (with_update (sql_now c) intervention_id data db)
    | None => True
    end.

(** The rows a query returns (none if it raised). *)
Definition rows_of {A} (m : M (list A)) (db : DB) : list A :=
  match (m db).1 with
  | Return l => l
  | Raise _ => []
  end.

(** The notification [create_intervention] sends to the account of
    [student] for the new intervention [k]. *)
Definition scheduled_notification (pf : Platform) (student : row)
    (title priority scheduled_date : value) (k : Z) : row :=
  DatabaseManager.notification_row
    (dict_get student "user_id")
    (VText "intervention_scheduled")
    (VText ("New Intervention Scheduled: " ++ InterventionManager.py_str pf title))
    (VText ("An intervention has been scheduled with your advisor. Date: "
            ++ InterventionManager.py_str pf
                 (InterventionManager.py_or scheduled_date (VText "TBD"))))
    {[ "priority" := priority;
       "related_entity_type" := VText "interventions";
       "related_entity_id" := VInt k ]}.

(** The student [create_intervention] notifies, if any: the student exists
    and has a user account. *)
Definition notified_student (db : DB) (student_id : option Z) : option row :=
  student ← DatabaseManager.select_by_key Students "student_id" student_id db;
  if truthy (dict_get student "user_id") then Some student else None.

(** ** Further example stores *)

(** An assessment of student 42 in term 1. *)
Definition example_assessment : risk_call :=
  mkRiskCall "2025-03-01 16:00:00" (Some 42) (Some 1) (VReal 0.5) ∅.

(** The example store after [complete_intervention(1, "Improved attendance", 4)]. *)
Definition example_completed : DB :=
  exec (InterventionManager.complete_intervention example_platform example_clock
          (Some 1) (VText "Improved attendance") (VInt 4) VNull VNull) example_created.

(** A store whose audit_logs.user_id is declared NOT NULL. *)
Definition strict_audit_platform : Platform :=
  mkPlatform source_columns
    (λ tn db r,
       match tn with
       | AuditLogs => truthy (dict_get r "user_id")
       | _ => references_student tn db r
       end)
    (λ _, "nan") example_json_dumps (λ _, "NaN") example_sql_le.

(** The store of the created intervention after an assessment of student 42
    in term 1 and another in term 2: two current rows for the student. *)
Definition example_two_terms : DB :=
  (run_calls example_platform
     [ example_assessment;
       mkRiskCall "2025-09-01 16:00:00" (Some 42) (Some 2) (VReal 0.25) ∅ ]
     example_created).2.

(** * Properties *)

(** ** The ledger of risk scores *)

Section ledger.
Context (pf : Platform).

Lemma max_rowid_bound (t : table) k r : t !! k = Some r → k ≤ max_rowid t.
Proof.
  intros Hk. unfold max_rowid.
  assert (k ∈ (map_to_list t).*1) as Hin.
  { apply list_elem_of_fmap. exists (k, r). split; [done|]. by apply elem_of_map_to_list. }
  revert Hin. generalize ((map_to_list t).*1). intros l.
  induction l as [|x l IH]; intros Hin.
  - by apply not_elem_of_nil in Hin.
  - apply elem_of_cons in Hin as [->|Hin]; simpl; [lia|]. specialize (IH Hin). lia.
Qed.

Lemma next_rowid_fresh (t : table) : t !! next_rowid t = None.
Proof.
  destruct (t !! next_rowid t) as [r|] eqn:E; [|done].
  apply max_rowid_bound in E. unfold next_rowid in E. lia.
Qed.

Lemma imap_as_fmap (f : row → row) (t : table) :
  map_imap (λ _ r, Some (f r)) t = f <$> t.
Proof.
  apply map_eq. intros i. rewrite map_lookup_imap, lookup_fmap.
  by destruct (t !! i).
Qed.


Lemma get_table_set_table tn t db : get_table tn (set_table tn t db) = t.
Proof. by destruct tn. Qed.

Lemma create_risk_score_cases now s t score kw db :
  match DatabaseManager.create_risk_score pf now s t score kw db with
  | (Return k, db') =>
      risk_scores db !! k = None
      ∧ db' = set_table RiskScores
                (<[k := DatabaseManager.risk_score_row now s t score kw]>
                   (supersede s t <$> risk_scores db)) db
  | (Raise e, db') => db' = db ∧ e ≠ ValidationError
  end.
Proof.
  unfold DatabaseManager.create_risk_score, DatabaseManager.get_connection.
  unfold mbind, M_bind, mret, M_ret.
  unfold DatabaseManager.execute_update.
  repeat case_bool_decide; try done.
  unfold DatabaseManager.execute_insert.
  repeat case_bool_decide; try done.
  rewrite !get_table_set_table. cbn [get_table].
  rewrite imap_as_fmap.
  destruct (row_ok pf RiskScores _ _); [|done].
  split.
  - pose proof (next_rowid_fresh (supersede s t <$> risk_scores db)) as Hf.
    rewrite lookup_fmap in Hf. by destruct (risk_scores db !! _).
  - by destruct db.
Qed.


Lemma sql_eq_int_Some v a : sql_eq_int v (Some a) = true ↔ v = VInt a.
Proof.
  destruct v; simpl; try (split; [done|intros [=]]).
  rewrite Z.eqb_eq. split; [by intros ->|by intros [= ->]].
Qed.

Lemma same_student_term_true cs ct r :
  DatabaseManager.same_student_term cs ct r = true ↔
  ∃ a b, cs = Some a ∧ ct = Some b
         ∧ dict_get r "student_id" = VInt a ∧ dict_get r "term_id" = VInt b.
Proof.
  unfold DatabaseManager.same_student_term. rewrite andb_true_iff.
  destruct cs as [a|], ct as [b|].
  - rewrite !sql_eq_int_Some. naive_solver.
  - split; [intros [_ H]|naive_solver]. by destruct (dict_get r "term_id").
  - split; [intros [H _]|naive_solver]. by destruct (dict_get r "student_id").
  - split; [intros [H _]|naive_solver]. by destruct (dict_get r "student_id").
Qed.











End ledger.


(** ** The operations of the store and of the intervention manager *)

Section lifecycle.
Context (pf : Platform).

Lemma set_table_same tn db : set_table tn (get_table tn db) db = db.
Proof. by destruct tn, db. Qed.

Lemma imap_as_alter (f : row → row) (i : Z) (t : table) :
  map_imap (λ k r, Some (if k =? i then f r else r)) t = alter f i t.
Proof.
  apply map_eq. intros j. rewrite map_lookup_imap.
  destruct (decide (j = i)) as [->|Hne].
  - rewrite lookup_alter_eq, Z.eqb_refl. by destruct (t !! i).
  - rewrite lookup_alter_ne by done.
    destruct (Z.eqb_spec j i); [done|]. by destruct (t !! j).
Qed.

Lemma execute_insert_cases tn r db :
  match DatabaseManager.execute_insert pf tn r db with
  | (Return k, db') => k = next_rowid (get_table tn db) ∧ db' = with_insert tn r db
  | (Raise e, db') => db' = db ∧ sqlite_error e
  end.
Proof.
  unfold DatabaseManager.execute_insert, sqlite_error.
  case_bool_decide; [|naive_solver].
  destruct (row_ok pf tn db r); naive_solver.
Qed.

Lemma update_intervention_cases now id kw db :
  match DatabaseManager.update_intervention pf now id kw db with
  | (Return _, db') => db' = with_update now id kw db
  | (Raise e, db') => db' = db ∧ sqlite_error e
  end.
Proof.
  unfold DatabaseManager.update_intervention, DatabaseManager.get_connection,
    DatabaseManager.execute_update, raise, sqlite_error.
  repeat case_bool_decide; try naive_solver.
  unfold with_update, DatabaseManager.key_is. cbn [get_table]. destruct id as [i|].
  - by rewrite imap_as_alter.
  - rewrite map_imap_Some. apply (set_table_same Interventions).
Qed.

Lemma log_action_cases user action etype eid old new db :
  match DatabaseManager.log_action pf user action etype eid old new db with
  | (Return _, db') =>
      db' = with_insert AuditLogs
              (DatabaseManager.audit_log_row pf user action etype eid old new) db
  | (Raise e, db') => db' = db ∧ sqlite_error e
  end.
Proof.
  unfold DatabaseManager.log_action, DatabaseManager.get_connection.
  unfold mbind, M_bind, mret, M_ret.
  pose proof (execute_insert_cases AuditLogs
    (DatabaseManager.audit_log_row pf user action etype eid old new) db) as H.
  destruct (DatabaseManager.execute_insert _ _ _ _) as [[k|e] db']; naive_solver.
Qed.

Lemma create_notification_cases user ntype title message kw db :
  match DatabaseManager.create_notification pf user ntype title message kw db with
  | (Return k, db') =>
      k = next_rowid (notifications db)
      ∧ db' = with_insert Notifications
                (DatabaseManager.notification_row user ntype title message kw) db
  | (Raise e, db') => db' = db ∧ sqlite_error e
  end.
Proof.
  unfold DatabaseManager.create_notification, DatabaseManager.get_connection.
  unfold mbind, M_bind, mret, M_ret.
  pose proof (execute_insert_cases Notifications
    (DatabaseManager.notification_row user ntype title message kw) db) as H.
  destruct (DatabaseManager.execute_insert _ _ _ _) as [[k|e] db']; naive_solver.
Qed.

Lemma db_create_intervention_cases sid aid title kw db :
  match DatabaseManager.create_intervention pf sid aid title kw db with
  | (Return k, db') =>
      k = next_rowid (interventions db)
      ∧ db' = with_insert Interventions
                (DatabaseManager.intervention_row sid aid title kw) db
  | (Raise e, db') => db' = db ∧ sqlite_error e
  end.
Proof.
  unfold DatabaseManager.create_intervention, DatabaseManager.get_connection.
  unfold mbind, M_bind, mret, M_ret.
  pose proof (execute_insert_cases Interventions
    (DatabaseManager.intervention_row sid aid title kw) db) as H.
  destruct (DatabaseManager.execute_insert _ _ _ _) as [[k|e] db']; naive_solver.
Qed.


Lemma update_status_data c id st notes db :
  (let update_data : row := {[ "status" := st ]} in
   (if truthy notes then
      intervention ← InterventionManager.select_notes id;
      match intervention with
      | first :: _ =>
          mret (<["notes" := VText (InterventionManager.status_note pf c
                   (dict_get_or first "notes" (VText EmptyString)) st notes)]> update_data)
      | [] => mret update_data
      end
    else mret update_data) : M row) db
  = (Return (match lookup_intervention db id with
             | Some r =>
                 if truthy notes
                 then <["notes" := VText (InterventionManager.status_note pf c
                                            (dict_get r "notes") st notes)]>
                        ({[ "status" := st ]} : row)
                 else {[ "status" := st ]}
             | None => {[ "status" := st ]}
             end), db).
Proof.
  cbv zeta. unfold lookup_intervention.
  destruct (truthy notes).
  - unfold InterventionManager.select_notes, DatabaseManager.get_connection, read.
    unfold mbind at 1. unfold M_bind.
    destruct (id ≫= λ i, interventions db !! i) as [r|].
    + unfold dict_get_or. rewrite lookup_singleton_eq. done.
    + done.
  - by destruct (id ≫= λ i, interventions db !! i).
Qed.

Lemma update_status_cases c id st notes db :
  let data := status_update_data pf c (lookup_intervention db id) st notes in
  let db1 := with_update (sql_now c) id data db in
  match InterventionManager.update_status pf c id st notes db with
  | (Return b, db') =>
      b = true ∧ db' = with_insert AuditLogs (status_audit_row pf id st) db1
  | (Raise e, db') => sqlite_error e ∧ (db' = db ∨ db' = db1)
  end.
Proof.
  intros data db1. unfold InterventionManager.update_status.
  unfold mbind at 1. unfold M_bind at 1.
  rewrite update_status_data.
  unfold mbind, M_bind, mret, M_ret.
  match goal with
  | |- context [DatabaseManager.update_intervention pf ?n ?i ?d db] =>
      replace d with data;
      [pose proof (update_intervention_cases n i data db) as Hu|]
  end.
  2:{ unfold data, status_update_data.
      destruct (lookup_intervention db id); destruct (truthy notes); done. }
  destruct (DatabaseManager.update_intervention _ _ _ _ _) as [[[]|e] db2].
  - subst db2. fold db1.
    pose proof (log_action_cases None (VText "INTERVENTION_STATUS_UPDATED")
      (VText "interventions") id None (Some {[ "status" := st ]}) db1) as Hl.
    destruct (DatabaseManager.log_action _ _ _ _ _ _ _ _) as [[[]|e] db3].
    + by subst db3.
    + destruct Hl as [-> He]. auto.
  - destruct Hu as [-> He]. auto.
Qed.


Lemma schedule_follow_up_cases c id date notes db :
  match InterventionManager.schedule_follow_up pf c id date notes db with
  | (Return b, db') =>
      b = true ∧ db' = with_update (sql_now c) id (follow_up_data date notes) db
  | (Raise e, db') => db' = db ∧ sqlite_error e
  end.
Proof.
  unfold InterventionManager.schedule_follow_up.
  unfold mbind, M_bind, mret, M_ret.
  pose proof (update_intervention_cases (sql_now c) id (follow_up_data date notes) db) as Hu.
  unfold follow_up_data in *.
  destruct (DatabaseManager.update_intervention _ _ _ _ _) as [[[]|e] db2]; naive_solver.
Qed.

Lemma notification_frame user ntype title message kw db :
  match (DatabaseManager.create_notification pf user ntype title message kw;; mret ()) db with
  | (Return _, d') => d' = set_table Notifications (notifications d') db
  | (Raise e, d') => d' = db ∧ sqlite_error e
  end.
Proof.
  unfold mbind, M_bind, mret, M_ret.
  pose proof (create_notification_cases user ntype title message kw db) as H.
  destruct (DatabaseManager.create_notification _ _ _ _ _ _ _) as [[k|e] d']; [|done].
  destruct H as [_ ->]. by destruct db.
Qed.

Lemma complete_intervention_cases c id oa sr resp dur db :
  let db1 := with_update (sql_now c) id (completion_data c oa sr resp dur) db in
  match InterventionManager.complete_intervention pf c id oa sr resp dur db with
  | (Return b, db') =>
      b = true ∧ db' = set_table Notifications (notifications db') db1
  | (Raise e, db') => sqlite_error e ∧ (db' = db ∨ db' = db1)
  end.
Proof.
  intros db1. unfold InterventionManager.complete_intervention.
  unfold mbind at 1. unfold M_bind at 1.
  pose proof (update_intervention_cases (sql_now c) id (completion_data c oa sr resp dur) db) as Hu.
  unfold completion_data in Hu at 1.
  destruct (DatabaseManager.update_intervention _ _ _ _ _) as [[[]|e] db2].
  2:{ destruct Hu as [-> He]. auto. }
  subst db2. fold db1.
  unfold mbind at 1. unfold M_bind at 1.
  unfold InterventionManager.get_intervention_by_id, DatabaseManager.get_connection, read.
  destruct (InterventionManager.intervention_details pf db1 id) as [iv|].
  2:{ unfold mbind, M_bind, mret, M_ret. split; [done|]. by destruct db1. }
  unfold mbind at 1. unfold M_bind at 1.
  unfold mbind at 1. unfold M_bind at 1.
  unfold DatabaseManager.get_student_by_id, DatabaseManager.get_connection, read.
  destruct (DatabaseManager.select_by_key Students _ _ db1) as [student|].
  2:{ unfold mret, M_ret. split; [done|]. by destruct db1. }
  destruct (truthy (dict_get student "user_id")).
  2:{ unfold mret, M_ret. split; [done|]. by destruct db1. }
  match goal with
  | |- context [(DatabaseManager.create_notification pf ?u ?t ?ti ?m ?k;; mret ()) db1] =>
      pose proof (notification_frame u t ti m k db1) as Hn;
      destruct ((DatabaseManager.create_notification pf u t ti m k;; mret ()) db1)
        as [[[]|e] db3]
  end.
  - by unfold mret, M_ret.
  - destruct Hn as [-> He]. auto.
Qed.


Lemma create_intervention_cases sid aid title desc itype prio sched loc meth fur notes db :
  let new := DatabaseManager.intervention_row sid aid title
               (creation_kwargs desc itype prio sched loc meth fur notes) in
  match InterventionManager.create_intervention pf sid aid title desc itype prio
          sched loc meth fur notes db with
  | (Return k, db') =>
      k = next_rowid (interventions db)
      ∧ db' = set_table Notifications (notifications db')
                (with_insert AuditLogs (creation_audit_row pf aid k)
                   (with_insert Interventions new db))
  | (Raise e, db') => sqlite_error e ∧ audit_logs db' = audit_logs db
  end.
Proof.
  intros new. unfold InterventionManager.create_intervention.
  unfold mbind at 1. unfold M_bind at 1.
  pose proof (db_create_intervention_cases sid aid title
    (creation_kwargs desc itype prio sched loc meth fur notes) db) as Hc.
  unfold creation_kwargs in Hc at 1.
  destruct (DatabaseManager.create_intervention _ _ _ _ _ _) as [[k|e] db1].
  2:{ by destruct Hc as [-> He]. }
  destruct Hc as [Hk Hdb1]. fold new in Hdb1.
  unfold mbind at 1. unfold M_bind at 1.
  unfold DatabaseManager.get_student_by_id, DatabaseManager.get_connection, read.
  unfold mbind at 1. unfold M_bind at 1.
  assert (∀ (body : M ()) ,
    match body db1 with
    | (Return _, d') => d' = set_table Notifications (notifications d') db1
    | (Raise e, d') => d' = db1 ∧ sqlite_error e
    end →
    match
      match body db1 with
      | (Return a, d') =>
          (DatabaseManager.log_action pf aid (VText "INTERVENTION_CREATED")
             (VText "interventions") (Some k) None None;; mret k) d'
      | (Raise e, d') => (Raise e, d')
      end
    with
    | (Return k0, db') =>
        k0 = next_rowid (interventions db)
        ∧ db' = set_table Notifications (notifications db')
                  (with_insert AuditLogs (creation_audit_row pf aid k0)
                     (with_insert Interventions new db))
    | (Raise e, db') => sqlite_error e ∧ audit_logs db' = audit_logs db
    end) as Hstep.
  { intros body Hb. destruct (body db1) as [[[]|e] d1].
    - unfold mbind, M_bind, mret, M_ret.
      pose proof (log_action_cases aid (VText "INTERVENTION_CREATED")
        (VText "interventions") (Some k) None None d1) as Hl.
      destruct (DatabaseManager.log_action _ _ _ _ _ _ _ _) as [[[]|e] d2].
      + split; [done|]. subst d2. fold (creation_audit_row pf aid k).
        rewrite Hb, Hdb1. by destruct db.
      + destruct Hl as [-> He]. split; [done|]. rewrite Hb, Hdb1. by destruct db.
    - destruct Hb as [-> He]. split; [done|]. rewrite Hdb1. by destruct db. }
  destruct (DatabaseManager.select_by_key Students _ _ db1) as [student|].
  2:{ refine (Hstep (mret ()) _). unfold mret, M_ret. by destruct db1. }
  destruct (truthy (dict_get student "user_id")).
  2:{ refine (Hstep (mret ()) _). unfold mret, M_ret. by destruct db1. }
  match goal with
  | |- context [(DatabaseManager.create_notification pf ?u ?t ?ti ?m ?kw;; mret ())] =>
      apply (Hstep (DatabaseManager.create_notification pf u t ti m kw;; mret ()));
      apply notification_frame
  end.
Qed.

End lifecycle.

(** ** When the operations return *)

Section acceptance.
Context (pf : Platform).

Lemma returned_bind {A B} (m : M A) (f : A → M B) db :
  returned ((m ≫= f) db).1 = true
  ↔ ∃ a db1, m db = (Return a, db1) ∧ returned (f a db1).1 = true.
Proof.
  unfold mbind, M_bind. destruct (m db) as [[a|e] db1]; simpl.
  - split; [eauto|]. by intros (a' & db' & [= -> ->] & H).
  - split; [done|]. by intros (a' & db' & [=] & _).
Qed.

Lemma returned_connection {A} (body : M A) db :
  returned (DatabaseManager.get_connection body db).1 = returned (body db).1.
Proof.
  unfold DatabaseManager.get_connection. by destruct (body db) as [[a|e] db1].
Qed.

Lemma execute_insert_returns tn r db :
  returned (DatabaseManager.execute_insert pf tn r db).1 = true
  ↔ store_accepts_insert pf tn r db.
Proof.
  unfold DatabaseManager.execute_insert, store_accepts_insert.
  case_bool_decide; [|simpl; naive_solver].
  destruct (row_ok pf tn db r); simpl; naive_solver.
Qed.

Lemma update_intervention_returns now id kw db :
  returned (DatabaseManager.update_intervention pf now id kw db).1 = true
  ↔ store_accepts_update pf now id kw db.
Proof.
  unfold DatabaseManager.update_intervention, store_accepts_update.
  rewrite returned_connection. unfold DatabaseManager.execute_update, raise.
  repeat case_bool_decide; simpl; naive_solver.
Qed.

Lemma log_action_returns user action etype eid old new db :
  returned (DatabaseManager.log_action pf user action etype eid old new db).1 = true
  ↔ store_accepts_insert pf AuditLogs
      (DatabaseManager.audit_log_row pf user action etype eid old new) db.
Proof.
  unfold DatabaseManager.log_action. rewrite returned_connection.
  rewrite <- execute_insert_returns. unfold mbind, M_bind, mret, M_ret.
  by destruct (DatabaseManager.execute_insert _ _ _ _) as [[k|e] db1].
Qed.

Lemma schedule_follow_up_returns c id date notes db :
  returned (InterventionManager.schedule_follow_up pf c id date notes db).1 = true
  ↔ store_accepts_update pf (sql_now c) id (follow_up_data date notes) db.
Proof.
  unfold InterventionManager.schedule_follow_up.
  rewrite <- update_intervention_returns. unfold mbind, M_bind, mret, M_ret.
  unfold follow_up_data.
  by destruct (DatabaseManager.update_intervention _ _ _ _ _) as [[k|e] db1].
Qed.

Lemma update_status_returns c id st notes db :
  returned (InterventionManager.update_status pf c id st notes db).1 = true
  ↔ store_accepts_status_update pf c id st notes db.
Proof.
  unfold store_accepts_status_update. cbv zeta.
  rewrite <- update_intervention_returns.
  unfold status_audit_row. rewrite <- log_action_returns.
  set (data := status_update_data pf c (lookup_intervention db id) st notes).
  unfold InterventionManager.update_status.
  unfold mbind at 1. unfold M_bind at 1.
  rewrite update_status_data.
  unfold mbind, M_bind, mret, M_ret.
  match goal with
  | |- context [DatabaseManager.update_intervention pf ?n ?i ?d db] =>
      replace d with data
  end.
  2:{ unfold data, status_update_data.
      destruct (lookup_intervention db id); destruct (truthy notes); done. }
  pose proof (update_intervention_cases pf (sql_now c) id data db) as Hu.
  destruct (DatabaseManager.update_intervention _ _ _ _ _) as [[[]|e] db2]; simpl.
  - subst db2.
    destruct (DatabaseManager.log_action _ _ _ _ _ _ _ _) as [[[]|e] db3]; simpl;
      naive_solver.
  - naive_solver.
Qed.


Lemma create_notification_returns user ntype title message kw db :
  returned ((DatabaseManager.create_notification pf user ntype title message kw;;
             mret ()) db).1 = true
  ↔ store_accepts_insert pf Notifications
      (DatabaseManager.notification_row user ntype title message kw) db.
Proof.
  unfold DatabaseManager.create_notification.
  rewrite <- execute_insert_returns. unfold mbind, M_bind, mret, M_ret.
  unfold DatabaseManager.get_connection.
  by destruct (DatabaseManager.execute_insert _ _ _ _) as [[k|e] db1].
Qed.

Lemma complete_intervention_returns c id oa sr resp dur db :
  returned (InterventionManager.complete_intervention pf c id oa sr resp dur db).1 = true
  ↔ store_accepts_completion pf c id oa sr resp dur db.
Proof.
  unfold store_accepts_completion. cbv zeta.
  rewrite <- update_intervention_returns.
  unfold InterventionManager.complete_intervention.
  unfold mbind at 1. unfold M_bind at 1.
  pose proof (update_intervention_cases pf (sql_now c) id
                (completion_data c oa sr resp dur) db) as Hu.
  unfold completion_data in Hu at 1. unfold completion_data at 1.
  destruct (DatabaseManager.update_intervention _ _ _ _ _) as [[[]|e] db2]; simpl.
  2:{ naive_solver. }
  subst db2. set (db1 := with_update _ _ _ _).
  unfold completion_notification.
  unfold mbind at 1. unfold M_bind at 1.
  unfold InterventionManager.get_intervention_by_id, DatabaseManager.get_connection, read.
  destruct (InterventionManager.intervention_details pf db1 id) as [iv|]; simpl.
  2:{ naive_solver. }
  unfold mbind at 1. unfold M_bind at 1.
  unfold mbind at 1. unfold M_bind at 1.
  unfold DatabaseManager.get_student_by_id, DatabaseManager.get_connection, read.
  destruct (DatabaseManager.select_by_key Students _ _ db1) as [student|]; simpl.
  2:{ naive_solver. }
  destruct (truthy (dict_get student "user_id")); simpl.
  2:{ naive_solver. }
  rewrite <- create_notification_returns.
  match goal with
  | |- context [(DatabaseManager.create_notification pf ?u ?t ?ti ?m ?k;; mret ()) db1] =>
      destruct ((DatabaseManager.create_notification pf u t ti m k;; mret ()) db1)
        as [[[]|e] db3]
  end; simpl; naive_solver.
Qed.

End acceptance.

(** ** Columns after an update *)

Lemma sqlite_error_not_spec e :
  sqlite_error e → e ≠ ValidationError ∧ e ≠ InvalidTransitionError.
Proof. intros [-> | ->]; done. Qed.

Lemma column_of_with_update now i kw db c :
  column_of (with_update now (Some i) kw db) i c
  = (λ r : row, dict_get (DatabaseManager.updated_row now kw r) c) <$> interventions db !! i.
Proof.
  unfold column_of, with_update. cbn [interventions set_table].
  rewrite lookup_alter_eq. by destruct (interventions db !! i).
Qed.

Lemma dict_get_updated_in now (kw r : row) c v :
  kw !! c = Some v → c ≠ "updated_at" →
  dict_get (DatabaseManager.updated_row now kw r) c = v.
Proof.
  intros Hc Hne. unfold dict_get, DatabaseManager.updated_row.
  rewrite lookup_insert_ne by done.
  by rewrite (lookup_union_Some_l kw r c v Hc).
Qed.

Lemma dict_get_updated_out now (kw r : row) c :
  kw !! c = None → c ≠ "updated_at" →
  dict_get (DatabaseManager.updated_row now kw r) c = dict_get r c.
Proof.
  intros Hc Hne. unfold dict_get, DatabaseManager.updated_row.
  rewrite lookup_insert_ne by done. by rewrite lookup_union_r.
Qed.

Lemma column_of_updated_in now i kw db c v :
  kw !! c = Some v → c ≠ "updated_at" →
  column_of (with_update now (Some i) kw db) i c = (λ _ : row, v) <$> interventions db !! i.
Proof.
  intros Hc Hne. rewrite column_of_with_update.
  destruct (interventions db !! i) as [r|]; [|done]. simpl.
  by rewrite (dict_get_updated_in now kw r c v).
Qed.

Lemma column_of_updated_out now i kw db c :
  kw !! c = None → c ≠ "updated_at" →
  column_of (with_update now (Some i) kw db) i c = column_of db i c.
Proof.
  intros Hc Hne. rewrite column_of_with_update. unfold column_of.
  destruct (interventions db !! i) as [r|]; [|done]. simpl.
  by rewrite dict_get_updated_out.
Qed.

Lemma column_of_audit e db i c : column_of (with_insert AuditLogs e db) i c = column_of db i c.
Proof. done. Qed.

Lemma column_of_notified t db i c :
  column_of (set_table Notifications t db) i c = column_of db i c.
Proof. done. Qed.

Lemma status_update_data_status pf c found st notes :
  status_update_data pf c found st notes !! "status" = Some st.
Proof.
  unfold status_update_data.
  destruct found; destruct (truthy notes);
    destruct (InterventionManager.py_eq_str st "Completed"); by simplify_map_eq.
Qed.

Lemma status_update_data_notes pf c r st notes :
  status_update_data pf c (Some r) st notes !! "notes"
  = if truthy notes
    then Some (VText (InterventionManager.status_note pf c (dict_get r "notes") st notes))
    else None.
Proof.
  unfold status_update_data.
  destruct (truthy notes);
    destruct (InterventionManager.py_eq_str st "Completed"); by simplify_map_eq.
Qed.



(** ** The lifecycle of an intervention *)

(** C2 (as amended): neither [update_status] nor [complete_intervention]
    looks at the status an intervention has: each returns exactly when the
    store takes its statements.  When [update_status] returns,
    the stored status is the requested one, whatever it was before, a
    terminal status included; when [complete_intervention] returns it is
    Completed.  When either raises, the exception is the store's and never
    [InvalidTransitionError], and the status is the old one or already the
    requested one. *)
Theorem transitions_are_unchecked (pf : Platform) (c : clock) (i : Z)
    (st notes oa sr resp dur : value) (db : DB) :
  (returned (InterventionManager.update_status pf c (Some i) st notes db).1 = true
   ↔ store_accepts_status_update pf c (Some i) st notes db)
  ∧ (returned (InterventionManager.complete_intervention pf c (Some i) oa sr resp dur
                 db).1 = true
     ↔ store_accepts_completion pf c (Some i) oa sr resp dur db)
  ∧ match InterventionManager.update_status pf c (Some i) st notes db with
  | (Return _, db') =>
      column_of db' i "status" = (λ _ : row, st) <$> interventions db !! i
  | (Raise e, db') =>
      e ≠ InvalidTransitionError
      ∧ (column_of db' i "status" = column_of db i "status"
         ∨ column_of db' i "status" = (λ _ : row, st) <$> interventions db !! i)
  end
  ∧ match InterventionManager.complete_intervention pf c (Some i) oa sr resp dur db with
    | (Return _, db') =>
        column_of db' i "status" = (λ _ : row, VText "Completed") <$> interventions db !! i
    | (Raise e, db') =>
        e ≠ InvalidTransitionError
        ∧ (column_of db' i "status" = column_of db i "status"
           ∨ column_of db' i "status"
             = (λ _ : row, VText "Completed") <$> interventions db !! i)
    end.
Proof.
  split; [apply update_status_returns|].
  split; [apply complete_intervention_returns|].
  split.
  - pose proof (update_status_cases pf c (Some i) st notes db) as H. cbv zeta in H.
    assert (column_of (with_update (sql_now c) (Some i)
              (status_update_data pf c (lookup_intervention db (Some i)) st notes) db)
              i "status" = (λ _ : row, st) <$> interventions db !! i) as Hst.
    { apply column_of_updated_in; [apply status_update_data_status|done]. }
    destruct (InterventionManager.update_status _ _ _ _ _ _) as [[b|e] db'].
    + destruct H as [_ ->]. by rewrite column_of_audit.
    + destruct H as [He [-> | ->]]; (split; [by apply sqlite_error_not_spec|]); auto.
  - pose proof (complete_intervention_cases pf c (Some i) oa sr resp dur db) as H.
    cbv zeta in H.
    assert (column_of (with_update (sql_now c) (Some i)
              (completion_data c oa sr resp dur) db) i "status"
            = (λ _ : row, VText "Completed") <$> interventions db !! i) as Hst.
    { by apply column_of_updated_in. }
    destruct (InterventionManager.complete_intervention _ _ _ _ _ _ _ _) as [[b|e] db'].
    + destruct H as [_ ->]. by rewrite column_of_notified.
    + destruct H as [He [-> | ->]]; (split; [by apply sqlite_error_not_spec|]); auto.
Qed.


(** C6 (as amended): [schedule_follow_up] does not look at the status: it
    returns exactly when the store takes its UPDATE.  When
    it returns, follow_up_required is 1 and follow_up_date is the given date,
    and the status is what it was, Completed or not; when it raises, the
    exception is the store's, never [InvalidTransitionError], and the store
    is unchanged. *)
Theorem schedule_follow_up_any_status (pf : Platform) (c : clock) (i : Z)
    (date notes : value) (db : DB) :
  (returned (InterventionManager.schedule_follow_up pf c (Some i) date notes db).1 = true
   ↔ store_accepts_update pf (sql_now c) (Some i) (follow_up_data date notes) db)
  ∧ match InterventionManager.schedule_follow_up pf c (Some i) date notes db with
  | (Return b, db') =>
      b = true
      ∧ column_of db' i "follow_up_required" = (λ _ : row, VInt 1) <$> interventions db !! i
      ∧ column_of db' i "follow_up_date" = (λ _ : row, date) <$> interventions db !! i
      ∧ column_of db' i "status" = column_of db i "status"
  | (Raise e, db') => e ≠ InvalidTransitionError ∧ db' = db
  end.
Proof.
  split; [apply schedule_follow_up_returns|].
  pose proof (schedule_follow_up_cases pf c (Some i) date notes db) as H.
  destruct (InterventionManager.schedule_follow_up _ _ _ _ _ _) as [[b|e] db'].
  - destruct H as [-> ->]. split; [done|].
    split; [|split]; [by apply column_of_updated_in..|].
    by apply column_of_updated_out.
  - destruct H as [-> He]. split; [by apply sqlite_error_not_spec|done].
Qed.

(** C9: [schedule_follow_up] returns exactly when the store takes its
    UPDATE, and when it returns, the notes column of the
    intervention holds the notes argument, whatever it held before; called
    without notes ([None]) it holds NULL.  When it raises, the store is
    unchanged. *)
Theorem schedule_follow_up_overwrites_notes (pf : Platform) (c : clock) (i : Z)
    (date notes : value) (db : DB) :
  (returned (InterventionManager.schedule_follow_up pf c (Some i) date notes db).1 = true
   ↔ store_accepts_update pf (sql_now c) (Some i) (follow_up_data date notes) db)
  ∧ match InterventionManager.schedule_follow_up pf c (Some i) date notes db with
  | (Return _, db') => column_of db' i "notes" = (λ _ : row, notes) <$> interventions db !! i
  | (Raise _, db') => db' = db
  end
  ∧ match InterventionManager.schedule_follow_up pf c (Some i) date VNull db with
    | (Return _, db') => column_of db' i "notes" = (λ _ : row, VNull) <$> interventions db !! i
    | (Raise _, db') => db' = db
    end.
Proof.
  assert (∀ n,
    match InterventionManager.schedule_follow_up pf c (Some i) date n db with
    | (Return _, db') => column_of db' i "notes" = (λ _ : row, n) <$> interventions db !! i
    | (Raise _, db') => db' = db
    end) as H.
  { intros n. pose proof (schedule_follow_up_cases pf c (Some i) date n db) as H.
    destruct (InterventionManager.schedule_follow_up _ _ _ _ _ _) as [[b|e] db'].
    - destruct H as [_ ->]. by apply column_of_updated_in.
    - by destruct H. }
  split; [apply schedule_follow_up_returns|]. split; apply H.
Qed.

(** C8: a status transition keeps the note log.  [update_status] returns
    exactly when the store takes its statements.  When it is
    called with notes and returns, the notes column holds the text it held,
    followed by a blank line, the time of the call in brackets, "Status
    changed to" with the new status, and the notes on a line of their own;
    called without notes it leaves the column as it was; when it raises, the
    column is as it was or as it would be had the call returned.
    [complete_intervention] leaves the column as it was. *)
Theorem update_status_appends_notes (pf : Platform) (c : clock) (i : Z)
    (st notes oa sr resp dur : value) (db : DB) :
  let appended (v : value) : value :=
    if truthy notes
    then VText (InterventionManager.py_str pf v ++ nl ++ nl ++ "[" ++ py_now c
                ++ "] Status changed to " ++ InterventionManager.py_str pf st
                ++ nl ++ InterventionManager.py_str pf notes)
    else v in
  (returned (InterventionManager.update_status pf c (Some i) st notes db).1 = true
   ↔ store_accepts_status_update pf c (Some i) st notes db)
  ∧ match InterventionManager.update_status pf c (Some i) st notes db with
  | (Return _, db') => column_of db' i "notes" = appended <$> column_of db i "notes"
  | (Raise _, db') =>
      column_of db' i "notes" = column_of db i "notes"
      ∨ column_of db' i "notes" = appended <$> column_of db i "notes"
  end
  ∧ (∀ s : string, InterventionManager.py_str pf (VText s) = s)
  ∧ column_of (InterventionManager.complete_intervention pf c (Some i) oa sr resp dur db).2
      i "notes" = column_of db i "notes".
Proof.
  intros appended. split; [apply update_status_returns|]. split; [|split; [done|]].
  - pose proof (update_status_cases pf c (Some i) st notes db) as H. cbv zeta in H.
    assert (column_of (with_update (sql_now c) (Some i)
              (status_update_data pf c (lookup_intervention db (Some i)) st notes) db)
              i "notes" = appended <$> column_of db i "notes") as Hn.
    { rewrite column_of_with_update. unfold column_of, lookup_intervention. simpl.
      destruct (interventions db !! i) as [r|]; [|done]. simpl. f_equal.
      pose proof (status_update_data_notes pf c r st notes) as Hd.
      unfold appended. destruct (truthy notes).
      - by apply dict_get_updated_in.
      - by apply dict_get_updated_out. }
    destruct (InterventionManager.update_status _ _ _ _ _ _) as [[b|e] db'].
    + destruct H as [_ ->]. by rewrite column_of_audit.
    + destruct H as [_ [-> | ->]]; auto.
  - pose proof (complete_intervention_cases pf c (Some i) oa sr resp dur db) as H.
    cbv zeta in H.
    destruct (InterventionManager.complete_intervention _ _ _ _ _ _ _ _) as [[b|e] db'];
      simpl.
    + destruct H as [_ ->]. rewrite column_of_notified.
      by apply column_of_updated_out.
    + destruct H as [_ [-> | ->]]; [done|]. by apply column_of_updated_out.
Qed.

(** ** What the ledger validates and stores *)


Lemma with_insert_size tn r db :
  size (get_table tn (with_insert tn r db)) = S (size (get_table tn db)).
Proof.
  unfold with_insert. rewrite get_table_set_table.
  apply map_size_insert_None, next_rowid_fresh.
Qed.



(** ** The audit log and the listing of interventions *)

Lemma audit_logs_with_insert r db :
  audit_logs (with_insert AuditLogs r db)
  = <[next_rowid (audit_logs db) := r]> (audit_logs db).
Proof. done. Qed.

(** C5 (as amended): when [create_intervention] returns the id [k], the
    intervention stands under [k] and the audit log has grown by exactly one
    row, INTERVENTION_CREATED for entity [k] of [interventions]; when
    [update_status] returns, the audit log has grown by exactly one row,
    INTERVENTION_STATUS_UPDATED for the id it was called with, whose
    new_values is the JSON text of the new status and whose old_values is
    NULL.  When either raises, the audit log is as it was. *)
Theorem create_and_update_status_audit (pf : Platform) (c : clock)
    (sid aid : option Z) (title desc itype prio sched loc meth fur notes0 : value)
    (id : option Z) (st notes : value) (db : DB) :
  match InterventionManager.create_intervention pf sid aid title desc itype prio
          sched loc meth fur notes0 db with
  | (Return k, db') =>
      interventions db !! k = None
      ∧ interventions db' !! k
        = Some (DatabaseManager.intervention_row sid aid title
                  (creation_kwargs desc itype prio sched loc meth fur notes0))
      ∧ audit_logs db'
        = <[next_rowid (audit_logs db) := creation_audit_row pf aid k]> (audit_logs db)
      ∧ size (audit_logs db') = S (size (audit_logs db))
      ∧ dict_get (creation_audit_row pf aid k) "action" = VText "INTERVENTION_CREATED"
      ∧ dict_get (creation_audit_row pf aid k) "entity_type" = VText "interventions"
      ∧ dict_get (creation_audit_row pf aid k) "entity_id" = VInt k
  | (Raise _, db') => audit_logs db' = audit_logs db
  end
  ∧ match InterventionManager.update_status pf c id st notes db with
    | (Return _, db') =>
        audit_logs db'
        = <[next_rowid (audit_logs db) := status_audit_row pf id st]> (audit_logs db)
        ∧ size (audit_logs db') = S (size (audit_logs db))
        ∧ dict_get (status_audit_row pf id st) "action"
          = VText "INTERVENTION_STATUS_UPDATED"
        ∧ dict_get (status_audit_row pf id st) "entity_type" = VText "interventions"
        ∧ dict_get (status_audit_row pf id st) "entity_id" = of_id id
        ∧ dict_get (status_audit_row pf id st) "old_values" = VNull
        ∧ dict_get (status_audit_row pf id st) "new_values"
          = VText (json_dumps pf {[ "status" := st ]})
    | (Raise _, db') => audit_logs db' = audit_logs db
    end.
Proof.
  split.
  - pose proof (create_intervention_cases pf sid aid title desc itype prio sched loc
                  meth fur notes0 db) as H. cbv zeta in H.
    destruct (InterventionManager.create_intervention _ _ _ _ _ _ _ _ _ _ _ _ _)
      as [[k|e] db'].
    + destruct H as [Hk ->]. cbn [interventions audit_logs set_table with_insert get_table].
      split; [subst k; apply next_rowid_fresh|].
      split; [subst k; apply lookup_insert_eq|].
      split; [done|].
      split; [apply map_size_insert_None, next_rowid_fresh|].
      unfold creation_audit_row, DatabaseManager.audit_log_row, dict_get.
      repeat split; by simplify_map_eq.
    + by destruct H.
  - pose proof (update_status_cases pf c id st notes db) as H. cbv zeta in H.
    destruct (InterventionManager.update_status _ _ _ _ _ _) as [[b|e] db'].
    + destruct H as [_ ->]. rewrite audit_logs_with_insert.
      assert (∀ d, audit_logs (with_update (sql_now c) id d db) = audit_logs db) as Hf.
      { intros d. by destruct id. }
      rewrite Hf.
      split; [done|].
      split; [apply map_size_insert_None, next_rowid_fresh|].
      unfold status_audit_row, DatabaseManager.audit_log_row, dict_get.
      repeat split; by simplify_map_eq.
    + destruct H as [_ [-> | ->]]; [done|]. by destruct id.
Qed.

Lemma get_interventions_row_falsy pf db aid st ki :
  DatabaseManager.get_interventions_row pf db (Some 0) aid st ki
  = DatabaseManager.get_interventions_row pf db None aid st ki
  ∧ DatabaseManager.get_interventions_row pf db aid (Some 0) st ki
    = DatabaseManager.get_interventions_row pf db aid None st ki
  ∧ DatabaseManager.get_interventions_row pf db aid aid (Some EmptyString) ki
    = DatabaseManager.get_interventions_row pf db aid aid None ki.
Proof. done. Qed.

(** C10: [get_interventions] takes a student_id or an advisor_id of 0 (and a
    status that is the empty string) for an absent one: the query it builds
    has no clause and no parameter for it, and the result is that of the
    call without the argument.  With both ids 0 and no status the call
    returns, leaves the store as it was, and its rows are those of every
    intervention that has a student, whoever the student and the advisor
    are. *)
Theorem get_interventions_falsy_filter (pf : Platform) (sid aid : option Z)
    (st : option string) (db : DB) :
  DatabaseManager.get_interventions_query (Some 0) aid st
  = DatabaseManager.get_interventions_query None aid st
  ∧ DatabaseManager.get_interventions_query sid (Some 0) st
    = DatabaseManager.get_interventions_query sid None st
  ∧ DatabaseManager.get_interventions_query sid aid (Some EmptyString)
    = DatabaseManager.get_interventions_query sid aid None
  ∧ DatabaseManager.get_interventions_query (Some 0) (Some 0) None
    = ("SELECT i.*, s.first_name || ' ' || s.last_name as student_name FROM interventions i JOIN students s ON i.student_id = s.student_id WHERE 1=1 ORDER BY i.scheduled_date DESC", [])
  ∧ DatabaseManager.get_interventions pf (Some 0) aid st db
    = DatabaseManager.get_interventions pf None aid st db
  ∧ DatabaseManager.get_interventions pf sid (Some 0) st db
    = DatabaseManager.get_interventions pf sid None st db
  ∧ match DatabaseManager.get_interventions pf (Some 0) (Some 0) None db with
    | (Return rows, db') =>
        db' = db
        ∧ rows ≡ₚ omap (DatabaseManager.get_interventions_row pf db None None None)
                    (map_to_list (interventions db))
        ∧ ∀ (k : Z) (i s : row),
            interventions db !! k = Some i →
            DatabaseManager.select_by_key Students "student_id"
              (DatabaseManager.as_id (dict_get i "student_id")) db = Some s →
            ∃ r : row, r ∈ rows ∧ dict_get r "intervention_id" = VInt k
                       ∧ dict_get r "student_id" = dict_get i "student_id"
                       ∧ dict_get r "advisor_id" = dict_get i "advisor_id"
    | (Raise _, _) => False
    end.
Proof.
  do 6 (split; [done|]).
  unfold DatabaseManager.get_interventions, DatabaseManager.get_connection, read.
  split; [done|]. split.
  - apply merge_sort_Permutation.
  - intros k i s Hi Hs.
    eexists. split.
    + rewrite merge_sort_Permutation. apply list_elem_of_omap.
      exists (k, i). split; [by apply elem_of_map_to_list|].
      unfold DatabaseManager.get_interventions_row. simpl. rewrite Hs. simpl. done.
    + unfold dict_get. by simplify_map_eq.
Qed.

(** ** Closed evaluations on the example store *)

(** C1, evaluated: two assessments recorded for student 42 in term 1 leave
    one current row for that pair, the second; another term has none. *)
Example two_assessments_one_current :
  let calls := [ mkRiskCall "2025-03-01 16:00:00" (Some 42) (Some 1) (VReal 0.5) ∅;
                 mkRiskCall "2025-03-02 16:00:00" (Some 42) (Some 1) (VReal 0.25) ∅ ] in
  (run_calls example_platform calls example_db).1 = [Return 1; Return 2]
  ∧ current_count 42 1 (run_calls example_platform calls example_db).2 = 1%nat
  ∧ risk_column_of (run_calls example_platform calls example_db).2 1 "is_current"
    = Some (VInt 0)
  ∧ risk_column_of (run_calls example_platform calls example_db).2 2 "is_current"
    = Some (VInt 1)
  ∧ current_count 42 2 (run_calls example_platform calls example_db).2 = 0%nat.
Proof. vm_compute. done. Qed.

(** C2, refuted as stated: the intervention 1 of the example store is
    Cancelled, a terminal state; [update_status(1, "Completed")] returns
    [True] and the stored status is Completed. *)
Lemma cancelled_intervention_is_completed :
  column_of example_cancelled 1 "status" = Some (VText "Cancelled")
  ∧ outcome (InterventionManager.update_status example_platform example_clock (Some 1)
               (VText "Completed") VNull) example_cancelled = Return true
  ∧ column_of (exec (InterventionManager.update_status example_platform example_clock
                       (Some 1) (VText "Completed") VNull) example_cancelled) 1 "status"
    = Some (VText "Completed").
Proof. vm_compute. done. Qed.



(** C5, refuted as stated: the audit row [update_status(1, "Cancelled")]
    wrote on the example store (row 2, after the row of the creation) has
    no old_values: the status before the transition is not recorded. *)
Lemma status_audit_has_no_before_value :
  size (audit_logs example_created) = 1%nat
  ∧ size (audit_logs example_cancelled) = 2%nat
  ∧ audit_column_of example_cancelled 2 "action"
    = Some (VText "INTERVENTION_STATUS_UPDATED")
  ∧ audit_column_of example_cancelled 2 "entity_id" = Some (VInt 1)
  ∧ audit_column_of example_cancelled 2 "old_values" = Some VNull.
Proof. vm_compute. done. Qed.

(** [complete_intervention] on the same store returns and leaves the audit
    log as it was. *)
Example completion_writes_no_audit_row :
  let call := InterventionManager.complete_intervention example_platform example_clock
                (Some 1) (VText "Improved attendance") (VInt 4) VNull VNull in
  outcome call example_created = Return true
  ∧ audit_logs (exec call example_created) = audit_logs example_created.
Proof. vm_compute. done. Qed.

(** C6, refuted as stated: [schedule_follow_up] on the Scheduled
    intervention 1 returns [True] and sets the follow-up. *)
Lemma follow_up_on_scheduled_intervention :
  let call := InterventionManager.schedule_follow_up example_platform example_clock
                (Some 1) (VText "2025-03-15") VNull in
  column_of example_created 1 "status" = Some (VText "Scheduled")
  ∧ outcome call example_created = Return true
  ∧ column_of (exec call example_created) 1 "follow_up_required" = Some (VInt 1)
  ∧ column_of (exec call example_created) 1 "follow_up_date" = Some (VText "2025-03-15")
  ∧ column_of (exec call example_created) 1 "status" = Some (VText "Scheduled").
Proof. vm_compute. done. Qed.


(** C8 and C9, evaluated: [update_status(1, "In Progress", "Called the
    student")] on an intervention whose notes read "First contact" appends
    to them; [schedule_follow_up(1, "2025-03-15")] then leaves NULL. *)
Example notes_appended_then_erased :
  let db0 := set_table Interventions
               (alter (λ r : row, <["notes" := VText "First contact"]> r) 1
                  (interventions example_created)) example_created in
  let db1 := exec (InterventionManager.update_status example_platform example_clock
                     (Some 1) (VText "In Progress") (VText "Called the student")) db0 in
  let db2 := exec (InterventionManager.schedule_follow_up example_platform example_clock
                     (Some 1) (VText "2025-03-15") VNull) db1 in
  column_of db1 1 "notes"
  = Some (VText ("First contact" ++ nl ++ nl
                 ++ "[2025-03-01 10:00:00] Status changed to In Progress" ++ nl
                 ++ "Called the student"))
  ∧ column_of db2 1 "notes" = Some VNull.
Proof. vm_compute. done. Qed.

(** C10, evaluated: with student_id 0 the intervention of student 42 is
    returned. *)
Example student_zero_lists_everyone :
  match outcome (DatabaseManager.get_interventions example_platform (Some 0) None None)
          example_created with
  | Return rows => map (λ r : row, dict_get r "student_id") rows = [VInt 42]
  | Raise _ => False
  end.
Proof. vm_compute. done. Qed.

(** ** Reading the ledger *)

Section ledger_queries.
Context (pf : Platform).

Lemma head_merge_sort_None {A} (R : relation A) `{!∀ x y, Decision (R x y)} (l : list A) :
  head (merge_sort R l) = None ↔ l = [].
Proof.
  pose proof (merge_sort_Permutation R l) as Hp.
  destruct (merge_sort R l) as [|x l'] eqn:E; simpl.
  - split; [|done]. intros _. by apply Permutation_nil_l in Hp.
  - split; [done|]. intros ->. by apply Permutation_nil_r in Hp.
Qed.

Lemma head_merge_sort_Some {A} (R : relation A) `{!∀ x y, Decision (R x y)} (l : list A) x :
  head (merge_sort R l) = Some x → x ∈ l.
Proof.
  intros Hh. rewrite <- (merge_sort_Permutation R l).
  destruct (merge_sort R l); simplify_eq/=. apply list_elem_of_here.
Qed.


Lemma omap_nil_iff {A B} (f : A → option B) (l : list A) :
  omap f l = [] ↔ ∀ x, x ∈ l → f x = None.
Proof.
  induction l as [|a l IH]; simpl.
  - split; [|done]. intros _ x Hx. by apply not_elem_of_nil in Hx.
  - destruct (f a) eqn:E.
    + split; [done|]. intros H. specialize (H a (list_elem_of_here _ _)). congruence.
    + rewrite IH. split.
      * intros H x Hx. apply elem_of_cons in Hx as [->|Hx]; auto.
      * intros H x Hx. apply H. by apply list_elem_of_further.
Qed.

Lemma current_score_row_Some s kr r :
  DatabaseManager.current_score_row (Some s) kr = Some r ↔
  r = <["risk_score_id" := VInt kr.1]> kr.2
  ∧ dict_get kr.2 "student_id" = VInt s ∧ dict_get kr.2 "is_current" = VInt 1.
Proof.
  unfold DatabaseManager.current_score_row.
  destruct (sql_eq_int (dict_get kr.2 "student_id") (Some s)) eqn:E1;
    destruct (sql_eq_int (dict_get kr.2 "is_current") (Some 1)) eqn:E2; simpl;
    rewrite ?sql_eq_int_Some in *.
  - naive_solver.
  - split; [done|]. intros (_ & _ & H). apply sql_eq_int_Some in H. congruence.
  - split; [done|]. intros (_ & H & _). apply sql_eq_int_Some in H. congruence.
  - split; [done|]. intros (_ & H & _). apply sql_eq_int_Some in H. congruence.
Qed.

(** X1: [get_current_risk_score] never raises and never writes.  For a
    student id it returns [None] exactly when no row of the student in the
    ledger is current, and a row it returns is a row of the ledger, with its
    id, that belongs to the student and is current; for [None] as the id it
    returns [None]. *)
Theorem get_current_risk_score_is_current (s : Z) (db : DB) :
  match DatabaseManager.get_current_risk_score pf (Some s) db with
  | (Return None, db') =>
      db' = db
      ∧ ∀ (k : Z) (r : row), risk_scores db !! k = Some r →
          dict_get r "student_id" = VInt s → dict_get r "is_current" ≠ VInt 1
  | (Return (Some r), db') =>
      db' = db
      ∧ ∃ (k : Z) (r0 : row),
          risk_scores db !! k = Some r0 ∧ r = <["risk_score_id" := VInt k]> r0
          ∧ dict_get r0 "student_id" = VInt s ∧ dict_get r0 "is_current" = VInt 1
  | (Raise _, _) => False
  end
  ∧ DatabaseManager.get_current_risk_score pf None db = (Return None, db).
Proof.
  unfold DatabaseManager.get_current_risk_score, DatabaseManager.get_connection, read.
  split.
  - destruct (head _) as [r|] eqn:Hh.
    + split; [done|]. apply head_merge_sort_Some in Hh.
      apply list_elem_of_omap in Hh as ([k r0] & Hin & Hr).
      apply elem_of_map_to_list in Hin. apply current_score_row_Some in Hr. simpl in Hr.
      exists k, r0. naive_solver.
    + split; [done|]. apply head_merge_sort_None in Hh.
      intros k r Hk Hs Hc. rewrite omap_nil_iff in Hh.
      specialize (Hh (k, r)). rewrite elem_of_map_to_list in Hh. specialize (Hh Hk).
      assert (DatabaseManager.current_score_row (Some s) (k, r)
              = Some (<["risk_score_id" := VInt k]> r)); [|congruence].
      by apply current_score_row_Some.
  - do 2 f_equal. apply head_merge_sort_None. apply omap_nil_iff.
    intros [k r] _. unfold DatabaseManager.current_score_row. simpl.
    by destruct (dict_get r "student_id").
Qed.


Lemma dict_get_supersede cs ct (r : row) col :
  col ≠ "is_current" → dict_get (supersede cs ct r) col = dict_get r col.
Proof.
  intros Hne. unfold supersede.
  destruct (DatabaseManager.same_student_term cs ct r); [|done].
  unfold dict_get. by rewrite lookup_insert_ne.
Qed.

Lemma same_student_term_with_key cs ct (r : row) key (v : value) :
  key ≠ "student_id" → key ≠ "term_id" →
  DatabaseManager.same_student_term cs ct (<[key := v]> r)
  = DatabaseManager.same_student_term cs ct r.
Proof.
  intros H1 H2. unfold DatabaseManager.same_student_term, dict_get.
  by rewrite !lookup_insert_ne.
Qed.

Lemma supersede_with_id cs ct (r : row) (k : Z) :
  <["risk_score_id" := VInt k]> (supersede cs ct r)
  = supersede cs ct (<["risk_score_id" := VInt k]> r).
Proof.
  unfold supersede. rewrite same_student_term_with_key by done.
  destruct (DatabaseManager.same_student_term cs ct r); [|done].
  by apply insert_insert_ne.
Qed.

Lemma ledger_after_recording cs ct (new : row) (k : Z) (m : table) :
  m !! k = None →
  map_to_list (<[k := new]> (supersede cs ct <$> m))
  ≡ₚ (k, new) :: (prod_map id (supersede cs ct) <$> map_to_list m).
Proof.
  intros Hk. rewrite map_to_list_insert by (by rewrite lookup_fmap, Hk).
  by rewrite map_to_list_fmap.
Qed.


Lemma history_row_superseded s cs ct (kr : Z * row) :
  DatabaseManager.history_row (Some s) (prod_map id (supersede cs ct) kr)
  = supersede cs ct <$> DatabaseManager.history_row (Some s) kr.
Proof.
  destruct kr as [k r]. unfold DatabaseManager.history_row. simpl.
  rewrite dict_get_supersede by done.
  destruct (sql_eq_int (dict_get r "student_id") (Some s)); [|done].
  simpl. by rewrite supersede_with_id.
Qed.

Lemma omap_history_superseded s cs ct (l : list (Z * row)) :
  omap (DatabaseManager.history_row (Some s)) (prod_map id (supersede cs ct) <$> l)
  = supersede cs ct <$> omap (DatabaseManager.history_row (Some s)) l.
Proof.
  induction l as [|kr l IH]; [done|]. rewrite fmap_cons.
  change (omap ?f (?x :: ?l')) with
    (match f x with Some y => y :: omap f l' | None => omap f l' end).
  rewrite history_row_superseded, IH.
  by destruct (DatabaseManager.history_row (Some s) kr).
Qed.

(** X3: the ledger is append-only.  When [create_risk_score] returns, the
    history [get_risk_score_history] gives for any student is the history
    it gave before, each row unchanged but for an [is_current] set to 0
    where the call superseded it, together with the new row when the call
    was for that student; order apart.  When the call raises, the store is
    as before. *)
Theorem history_after_recording (c : risk_call) (s : Z) (db : DB) :
  match record_assessment pf c db with
  | (Return k, db') =>
      rows_of (DatabaseManager.get_risk_score_history pf (Some s)) db'
      ≡ₚ (if bool_decide (rc_student c = Some s)
          then [ <["risk_score_id" := VInt k]>
                   (DatabaseManager.risk_score_row (rc_now c) (rc_student c)
                      (rc_term c) (rc_score c) (rc_kwargs c)) ]
          else [])
         ++ (supersede (rc_student c) (rc_term c)
               <$> rows_of (DatabaseManager.get_risk_score_history pf (Some s)) db)
  | (Raise _, db') => db' = db
  end
  ∧ ∀ (cs ct : option Z) (r : row) (col : string),
      col ≠ "is_current" → dict_get (supersede cs ct r) col = dict_get r col.
Proof.
  split; [|intros; by apply dict_get_supersede].
  unfold record_assessment.
  pose proof (create_risk_score_cases pf (rc_now c) (rc_student c) (rc_term c)
                (rc_score c) (rc_kwargs c) db) as H.
  destruct (DatabaseManager.create_risk_score _ _ _ _ _ _ _) as [[k|e] db']; [|by destruct H].
  destruct H as [Hk ->]. set (new := DatabaseManager.risk_score_row _ _ _ _ _).
  unfold rows_of, DatabaseManager.get_risk_score_history, DatabaseManager.get_connection,
    read. simpl.
  rewrite !merge_sort_Permutation. rewrite ledger_after_recording by done. simpl.
  rewrite omap_history_superseded.
  unfold DatabaseManager.history_row at 1. simpl.
  assert (dict_get new "student_id" = of_id (rc_student c)) as ->.
  { unfold new, DatabaseManager.risk_score_row, dict_get. by simplify_map_eq. }
  case_bool_decide as Hs.
  - rewrite Hs. simpl. by rewrite Z.eqb_refl.
  - destruct (sql_eq_int (of_id (rc_student c)) (Some s)) eqn:E; [|done].
    apply sql_eq_int_Some in E. destruct (rc_student c); naive_solver.
Qed.

Lemma supersede_null_id cs ct (r : row) : cs = None ∨ ct = None → supersede cs ct r = r.
Proof.
  intros H. unfold supersede.
  destruct (DatabaseManager.same_student_term cs ct r) eqn:E; [|done].
  apply same_student_term_true in E as (a & b & -> & -> & _). naive_solver.
Qed.

(** X4: a call of [create_risk_score] with [None] for the student or for the
    term supersedes nothing: [student_id = ?] and [term_id = ?] select no
    row when the parameter is NULL.  If it returns, the ledger is the old
    one with the new row, which is marked current, added. *)
Theorem create_risk_score_null_id_supersedes_nothing (now : string)
    (student_id term_id : option Z) (score : value) (kwargs : row) (db : DB) :
  match DatabaseManager.create_risk_score pf now None term_id score kwargs db with
  | (Return k, db') =>
      risk_scores db !! k = None
      ∧ risk_scores db'
        = <[k := DatabaseManager.risk_score_row now None term_id score kwargs]>
            (risk_scores db)
      ∧ risk_column_of db' k "is_current" = Some (VInt 1)
  | (Raise _, db') => db' = db
  end
  ∧ match DatabaseManager.create_risk_score pf now student_id None score kwargs db with
    | (Return k, db') =>
        risk_scores db !! k = None
        ∧ risk_scores db'
          = <[k := DatabaseManager.risk_score_row now student_id None score kwargs]>
              (risk_scores db)
        ∧ risk_column_of db' k "is_current" = Some (VInt 1)
    | (Raise _, db') => db' = db
    end.
Proof.
  assert (∀ cs ct, cs = None ∨ ct = None →
    match DatabaseManager.create_risk_score pf now cs ct score kwargs db with
    | (Return k, db') =>
        risk_scores db !! k = None
        ∧ risk_scores db'
          = <[k := DatabaseManager.risk_score_row now cs ct score kwargs]> (risk_scores db)
        ∧ risk_column_of db' k "is_current" = Some (VInt 1)
    | (Raise _, db') => db' = db
    end) as H.
  { intros cs ct Hnull.
    pose proof (create_risk_score_cases pf now cs ct score kwargs db) as H.
    destruct (DatabaseManager.create_risk_score _ _ _ _ _ _ _) as [[k|e] db'];
      [|by destruct H].
    destruct H as [Hk ->]. split; [done|]. unfold risk_column_of.
    cbn [risk_scores set_table].
    assert (supersede cs ct <$> risk_scores db = risk_scores db) as ->.
    { apply map_eq. intros j. rewrite lookup_fmap.
      destruct (risk_scores db !! j) as [r|]; [|done]. simpl.
      by rewrite supersede_null_id. }
    split; [done|]. rewrite lookup_insert_eq. simpl.
    unfold DatabaseManager.risk_score_row, dict_get. by simplify_map_eq. }
  split; apply H; auto.
Qed.

End ledger_queries.

(** ** What the manager changes *)

Section manager_effects.
Context (pf : Platform).

Lemma select_student_after_insert tn r sid db :
  tn ≠ Students →
  DatabaseManager.select_by_key Students "student_id" sid (with_insert tn r db)
  = DatabaseManager.select_by_key Students "student_id" sid db.
Proof. intros H. by destruct tn. Qed.

Lemma create_intervention_steps sid aid title desc itype prio sched loc meth fur notes db :
  let new := DatabaseManager.intervention_row sid aid title
               (creation_kwargs desc itype prio sched loc meth fur notes) in
  let k := next_rowid (interventions db) in
  let db1 := with_insert Interventions new db in
  let db2 := match notified_student db sid with
             | Some student =>
                 with_insert Notifications
                   (scheduled_notification pf student title prio sched k) db1
             | None => db1
             end in
  match InterventionManager.create_intervention pf sid aid title desc itype prio
          sched loc meth fur notes db with
  | (Return k', db') =>
      k' = k ∧ db' = with_insert AuditLogs (creation_audit_row pf aid k) db2
  | (Raise e, db') => sqlite_error e ∧ (db' = db ∨ db' = db1 ∨ db' = db2)
  end.
Proof.
  intros new k db1 db2. unfold InterventionManager.create_intervention.
  unfold mbind at 1. unfold M_bind at 1.
  pose proof (db_create_intervention_cases pf sid aid title
    (creation_kwargs desc itype prio sched loc meth fur notes) db) as Hc.
  unfold creation_kwargs in Hc at 1.
  destruct (DatabaseManager.create_intervention _ _ _ _ _ _) as [[k0|e] d1].
  2:{ destruct Hc as [-> He]. auto. }
  destruct Hc as [-> Hd1]. fold new in Hd1. fold db1 in Hd1. fold k. subst d1.
  unfold mbind at 1. unfold M_bind at 1.
  unfold DatabaseManager.get_student_by_id, DatabaseManager.get_connection, read.
  unfold mbind at 1. unfold M_bind at 1.
  assert (DatabaseManager.select_by_key Students "student_id" sid db1
          = DatabaseManager.select_by_key Students "student_id" sid db) as Hsel.
  { by apply select_student_after_insert. }
  rewrite Hsel. unfold notified_student in db2.
  set (logk := (DatabaseManager.log_action pf aid (VText "INTERVENTION_CREATED")
                  (VText "interventions") (Some k) None None;; mret k) : M Z).
  assert (∀ d2 : DB,
    match logk d2 with
    | (Return k', db') =>
        k' = k ∧ db' = with_insert AuditLogs (creation_audit_row pf aid k) d2
    | (Raise e, db') => sqlite_error e ∧ db' = d2
    end) as Hlog.
  { intros d2. unfold logk, mbind, M_bind, mret, M_ret.
    pose proof (log_action_cases pf aid (VText "INTERVENTION_CREATED")
      (VText "interventions") (Some k) None None d2) as Hl.
    destruct (DatabaseManager.log_action _ _ _ _ _ _ _ _) as [[[]|e] d3]; naive_solver. }
  destruct (DatabaseManager.select_by_key Students "student_id" sid db) as [student|];
    simpl in db2.
  2:{ specialize (Hlog db1). unfold mret at 1, M_ret at 1.
      destruct (logk db1) as [[k'|e] d3]; naive_solver. }
  destruct (truthy (dict_get student "user_id")).
  2:{ specialize (Hlog db1). unfold mret at 1, M_ret at 1.
      destruct (logk db1) as [[k'|e] d3]; naive_solver. }
  unfold mbind at 1. unfold M_bind at 1.
  match goal with
  | |- context [DatabaseManager.create_notification pf ?u ?t ?ti ?m ?kw db1] =>
      pose proof (create_notification_cases pf u t ti m kw db1) as Hn
  end.
  match goal with
  | |- context [DatabaseManager.create_notification pf ?u ?t ?ti ?m ?kw db1] =>
      destruct (DatabaseManager.create_notification pf u t ti m kw db1) as [[n|e] d2]
  end.
  - destruct Hn as [_ ->]. unfold mret at 1, M_ret at 1.
    specialize (Hlog (with_insert Notifications
                        (scheduled_notification pf student title prio sched k) db1)).
    unfold scheduled_notification at 1 in Hlog.
    destruct (logk _) as [[k'|e] d3].
    + destruct Hlog as [-> ->]. by split.
    + destruct Hlog as [He ->]. split; [done|]. right. by right.
  - destruct Hn as [-> He]. auto.
Qed.


Lemma with_update_other now id kw db :
  students (with_update now id kw db) = students db
  ∧ advisors (with_update now id kw db) = advisors db
  ∧ intervention_types (with_update now id kw db) = intervention_types db
  ∧ risk_scores (with_update now id kw db) = risk_scores db
  ∧ notifications (with_update now id kw db) = notifications db
  ∧ audit_logs (with_update now id kw db) = audit_logs db.
Proof. by destruct id. Qed.


Lemma with_update_dom now id kw db :
  dom (interventions (with_update now id kw db)) = dom (interventions db).
Proof.
  unfold with_update. destruct id as [i|]; [|done].
  cbn [interventions set_table]. apply dom_alter_L.
Qed.

Lemma with_update_missing now i kw db :
  interventions db !! i = None → with_update now (Some i) kw db = db.
Proof.
  intros H. unfold with_update.
  assert (alter (DatabaseManager.updated_row now kw) i (interventions db)
          = interventions db) as ->.
  { apply map_eq. intros j. destruct (decide (j = i)) as [->|Hne].
    - by rewrite lookup_alter_eq, H.
    - by rewrite lookup_alter_ne. }
  by destruct db.
Qed.



(** X6: [update_status] does not check that the intervention exists.  Called
    with an id under which no intervention is stored, it changes no
    intervention; when it returns, it returns [True] and has written the
    audit row of a status change for that id; when it raises, the store is
    as before. *)
Theorem update_status_missing_intervention (c : clock) (i : Z) (st notes : value)
    (db : DB) :
  interventions db !! i = None →
  match InterventionManager.update_status pf c (Some i) st notes db with
  | (Return b, db') =>
      b = true
      ∧ db' = with_insert AuditLogs (status_audit_row pf (Some i) st) db
      ∧ interventions db' = interventions db
      ∧ audit_logs db' !! next_rowid (audit_logs db)
        = Some (status_audit_row pf (Some i) st)
  | (Raise _, db') => db' = db
  end.
Proof.
  intros Hi. pose proof (update_status_cases pf c (Some i) st notes db) as H.
  cbv zeta in H. rewrite with_update_missing in H by done.
  destruct (InterventionManager.update_status _ _ _ _ _ _) as [[b|e] db'].
  - destruct H as [-> ->]. repeat split.
    cbn [audit_logs set_table with_insert get_table]. apply lookup_insert_eq.
  - destruct H as [_ [-> | ->]]; done.
Qed.

Lemma with_insert_audit_subseteq r db :
  audit_logs db ⊆ audit_logs (with_insert AuditLogs r db).
Proof.
  cbn [audit_logs set_table with_insert get_table].
  apply insert_subseteq, next_rowid_fresh.
Qed.

(** X7: the manager erases nothing.  Whatever [create_intervention],
    [update_status], [complete_intervention] and [schedule_follow_up] do,
    return or raise, every audit row stands as it was, every intervention is
    still stored under its id, and the students and the ledger of risk
    scores are as before. *)
Theorem manager_erases_nothing (c : clock) (sid aid id : option Z)
    (title desc itype prio sched loc meth fur notes0 : value)
    (st notes oa sr resp dur date : value) (db : DB) :
  let kept (db' : DB) : Prop :=
    audit_logs db ⊆ audit_logs db'
    ∧ dom (interventions db) ⊆ dom (interventions db')
    ∧ students db' = students db
    ∧ risk_scores db' = risk_scores db in
  kept (exec (InterventionManager.create_intervention pf sid aid title desc itype prio
                sched loc meth fur notes0) db)
  ∧ kept (exec (InterventionManager.update_status pf c id st notes) db)
  ∧ kept (exec (InterventionManager.complete_intervention pf c id oa sr resp dur) db)
  ∧ kept (exec (InterventionManager.schedule_follow_up pf c id date notes) db).
Proof.
  intros kept.
  assert (kept db) as Hdb by done.
  assert (∀ now kw, kept (with_update now id kw db)) as Hup.
  { intros now kw. unfold kept. rewrite with_update_dom.
    by destruct (with_update_other now id kw db) as (-> & _ & _ & -> & _ & ->). }
  assert (∀ d r, kept d → kept (with_insert AuditLogs r d)) as Haud.
  { intros d r (Ha & Hd & Hs & Hr). unfold kept. repeat split; try done.
    etrans; [exact Ha|]. apply with_insert_audit_subseteq. }
  assert (∀ d t, kept d → kept (set_table Notifications t d)) as Hnot.
  { intros d t Hk. exact Hk. }
  assert (∀ d r, kept d → kept (with_insert Notifications r d)) as Hnot'.
  { intros d r Hk. exact Hk. }
  assert (∀ r, kept (with_insert Interventions r db)) as Hins.
  { intros r. unfold kept. cbn [audit_logs interventions students risk_scores
      set_table with_insert get_table]. repeat split; try done.
    rewrite dom_insert_L. set_solver. }
  unfold exec. split; [|split; [|split]].
  - pose proof (create_intervention_steps sid aid title desc itype prio sched loc
                  meth fur notes0 db) as H. cbv zeta in H.
    destruct (InterventionManager.create_intervention _ _ _ _ _ _ _ _ _ _ _ _ _)
      as [[k|e] db']; simpl.
    + destruct H as [_ ->]. apply Haud.
      destruct (notified_student db sid); [apply Hnot'|]; apply Hins.
    + destruct H as [_ [-> | [-> | ->]]]; [done|apply Hins|].
      destruct (notified_student db sid); [apply Hnot'|]; apply Hins.
  - pose proof (update_status_cases pf c id st notes db) as H. cbv zeta in H.
    destruct (InterventionManager.update_status _ _ _ _ _ _) as [[b|e] db']; simpl.
    + destruct H as [_ ->]. apply Haud, Hup.
    + destruct H as [_ [-> | ->]]; [done|apply Hup].
  - pose proof (complete_intervention_cases pf c id oa sr resp dur db) as H.
    cbv zeta in H.
    destruct (InterventionManager.complete_intervention _ _ _ _ _ _ _ _)
      as [[b|e] db']; simpl.
    + destruct H as [_ ->]. apply Hnot, Hup.
    + destruct H as [_ [-> | ->]]; [done|apply Hup].
  - pose proof (schedule_follow_up_cases pf c id date notes db) as H.
    destruct (InterventionManager.schedule_follow_up _ _ _ _ _ _) as [[b|e] db']; simpl.
    + destruct H as [_ ->]. apply Hup.
    + by destruct H as [-> _].
Qed.

End manager_effects.

(** ** Listing the interventions of a student *)

Section listing.
Context (pf : Platform).

Lemma select_student_Some sid db s :
  DatabaseManager.select_by_key Students "student_id" sid db = Some s ↔
  ∃ k st, sid = Some k ∧ students db !! k = Some st ∧ s = <["student_id" := VInt k]> st.
Proof.
  unfold DatabaseManager.select_by_key. cbn [get_table].
  destruct sid as [k|]; simpl.
  - destruct (students db !! k) as [st|] eqn:E; simpl.
    + split.
      * intros [= <-]. by exists k, st.
      * intros (k' & st' & [= <-] & Hst & ->). congruence.
    + split; [done|]. intros (k' & st' & [= <-] & Hst & _). congruence.
  - split; [done|]. by intros (k' & st' & [=] & _).
Qed.

Lemma as_id_Some v k : DatabaseManager.as_id v = Some k ↔ v = VInt k.
Proof. destruct v; simpl; naive_solver. Qed.

Lemma full_name_selected (st : row) (k : Z) :
  InterventionManager.full_name pf (<["student_id" := VInt k]> st)
  = InterventionManager.full_name pf st.
Proof. unfold InterventionManager.full_name, dict_get. by rewrite !lookup_insert_ne. Qed.

Lemma sql_eq_text_true v t : sql_eq_text v t = true ↔ v = VText t.
Proof.
  destruct v; simpl; try (split; [done|intros [=]]).
  rewrite String.eqb_eq. split; [by intros ->|by intros [= ->]].
Qed.

Lemma get_interventions_elem sid aid status db r :
  r ∈ rows_of (DatabaseManager.get_interventions pf sid aid status) db ↔
  ∃ k i, interventions db !! k = Some i
         ∧ DatabaseManager.get_interventions_row pf db sid aid status (k, i) = Some r.
Proof.
  unfold rows_of, DatabaseManager.get_interventions, DatabaseManager.get_connection, read.
  simpl. rewrite merge_sort_Permutation, list_elem_of_omap. split.
  - intros ([k i] & Hin & Hr). apply elem_of_map_to_list in Hin. eauto.
  - intros (k & i & Hin & Hr). exists (k, i). by rewrite elem_of_map_to_list.
Qed.

Lemma get_interventions_row_Some db sid aid status k i r :
  DatabaseManager.get_interventions_row pf db sid aid status (k, i) = Some r ↔
  ∃ sk st, dict_get i "student_id" = VInt sk ∧ students db !! sk = Some st
           ∧ DatabaseManager.get_interventions_where sid aid status i = true
           ∧ r = <["student_name" := InterventionManager.full_name pf st]>
                   (<["intervention_id" := VInt k]> i).
Proof.
  unfold DatabaseManager.get_interventions_row. simpl. split.
  - destruct (DatabaseManager.select_by_key _ _ _ _) as [s|] eqn:Hs; [|done]. simpl.
    apply select_student_Some in Hs as (sk & st & Hid & Hst & ->).
    apply as_id_Some in Hid.
    destruct (DatabaseManager.get_interventions_where sid aid status i); [|done].
    intros [= <-]. exists sk, st. repeat split; try done.
    by rewrite <- (full_name_selected st sk).
  - intros (sk & st & Hid & Hst & Hw & ->).
    assert (DatabaseManager.select_by_key Students "student_id"
              (DatabaseManager.as_id (dict_get i "student_id")) db
            = Some (<["student_id" := VInt sk]> st)) as ->.
    { apply select_student_Some. exists sk, st. by rewrite Hid. }
    simpl. rewrite Hw. by rewrite <- (full_name_selected st sk).
Qed.

(** X8: [get_interventions_for_student] with a student id other than 0
    lists exactly the interventions of that student, provided the row of
    the student exists: each row returned is such an intervention with its
    id and the name of the student, and each such intervention is returned.
    A status that is given and not empty restricts the list to the
    interventions in that status. *)
Theorem get_interventions_for_student_exact (s : Z) (status : option string)
    (db : DB) (r : row) :
  s ≠ 0 →
  r ∈ rows_of (InterventionManager.get_interventions_for_student pf (Some s) status) db
  ↔ ∃ (k : Z) (i st : row),
      interventions db !! k = Some i
      ∧ students db !! s = Some st
      ∧ dict_get i "student_id" = VInt s
      ∧ match status with
        | Some t => t = EmptyString ∨ dict_get i "status" = VText t
        | None => True
        end
      ∧ r = <["student_name" := InterventionManager.full_name pf st]>
              (<["intervention_id" := VInt k]> i).
Proof.
  intros Hs. unfold InterventionManager.get_interventions_for_student.
  rewrite get_interventions_elem.
  assert (∀ i, DatabaseManager.get_interventions_where (Some s) None status i = true
               ↔ dict_get i "student_id" = VInt s
                 ∧ match status with
                   | Some t => t = EmptyString ∨ dict_get i "status" = VText t
                   | None => True
                   end) as Hw.
  { intros i. unfold DatabaseManager.get_interventions_where. simpl.
    destruct (Z.eqb_spec s 0) as [|_]; [done|]. simpl.
    rewrite !andb_true_iff, sql_eq_int_Some.
    destruct status as [t|]; simpl; [|naive_solver].
    destruct (String.eqb_spec t EmptyString) as [->|Hne]; simpl; [naive_solver|].
    rewrite sql_eq_text_true. naive_solver. }
  split.
  - intros (k & i & Hi & Hr). apply get_interventions_row_Some in Hr
      as (sk & st & Hid & Hst & Hwh & ->).
    apply Hw in Hwh as [Hid' Hstat]. exists k, i, st.
    assert (sk = s) as -> by congruence. done.
  - intros (k & i & st & Hi & Hst & Hid & Hstat & ->). exists k, i. split; [done|].
    apply get_interventions_row_Some. exists s, st. repeat split; try done.
    by apply Hw.
Qed.

(** X9: an intervention that [create_intervention] created for a student
    who exists (and whose id is not 0) is listed by
    [get_interventions_for_student] for that student on the store the call
    left, under the id the call returned, in status Scheduled, with the
    title and the advisor it was created with. *)
Theorem created_intervention_is_listed (s k : Z) (st : row) (aid : option Z)
    (title desc itype prio sched loc meth fur notes : value) (db db' : DB) :
  s ≠ 0 →
  students db !! s = Some st →
  InterventionManager.create_intervention pf (Some s) aid title desc itype prio sched
    loc meth fur notes db = (Return k, db') →
  ∃ r : row,
    r ∈ rows_of (InterventionManager.get_interventions_for_student pf (Some s) None) db'
    ∧ dict_get r "intervention_id" = VInt k
    ∧ dict_get r "status" = VText "Scheduled"
    ∧ dict_get r "title" = title
    ∧ dict_get r "advisor_id" = of_id aid
    ∧ dict_get r "priority" = prio.
Proof.
  intros Hs Hst Hcall.
  pose proof (create_intervention_steps pf (Some s) aid title desc itype prio sched loc
                meth fur notes db) as H. cbv zeta in H. rewrite Hcall in H.
  destruct H as [-> ->].
  set (new := DatabaseManager.intervention_row (Some s) aid title
                (creation_kwargs desc itype prio sched loc meth fur notes)).
  set (k := next_rowid (interventions db)).
  exists (<["student_name" := InterventionManager.full_name pf st]>
            (<["intervention_id" := VInt k]> new)).
  split.
  - unfold InterventionManager.get_interventions_for_student.
    apply get_interventions_elem. exists k, new. split.
    { destruct (notified_student db (Some s));
        cbn [interventions set_table with_insert get_table]; apply lookup_insert_eq. }
    apply get_interventions_row_Some. exists s, st.
    assert (dict_get new "student_id" = VInt s) as Hid.
    { unfold new, DatabaseManager.intervention_row, dict_get. by simplify_map_eq. }
    split; [done|]. split.
    { by destruct (notified_student db (Some s)). }
    split; [|done].
    unfold DatabaseManager.get_interventions_where. simpl.
    destruct (Z.eqb_spec s 0) as [|_]; [done|]. simpl.
    rewrite Hid. simpl. by rewrite Z.eqb_refl.
  - unfold new, DatabaseManager.intervention_row, creation_kwargs, dict_get, dict_get_or.
    repeat split; by simplify_map_eq.
Qed.

End listing.

(** ** Overdue, due and pending interventions *)

Lemma string_compare_refl (s : string) : String.compare s s = Eq.
Proof.
  induction s as [|a s IH]; [done|]. simpl.
  unfold Ascii.compare. by rewrite N.compare_refl.
Qed.

Lemma string_ltb_extension (d time : string) : String.ltb (d ++ time) d = false.
Proof.
  unfold String.ltb. induction d as [|a d IH]; simpl.
  - by destruct time.
  - unfold Ascii.compare. rewrite N.compare_refl. exact IH.
Qed.

Section due.
Context (pf : Platform).

(** The ids of the interventions a query lists. *)
Lemma with_student_name_id db ki r :
  InterventionManager.with_student_name pf db ki = Some r →
  dict_get r "intervention_id" = VInt ki.1.
Proof.
  unfold InterventionManager.with_student_name.
  destruct (DatabaseManager.select_by_key _ _ _ _) as [s|]; [|done]. simpl.
  intros [= <-]. unfold dict_get. by simplify_map_eq.
Qed.

Lemma with_student_name_Some db k i :
  is_Some (InterventionManager.with_student_name pf db (k, i)) ↔
  ∃ sk st, dict_get i "student_id" = VInt sk ∧ students db !! sk = Some st.
Proof.
  unfold InterventionManager.with_student_name. simpl. split.
  - destruct (DatabaseManager.select_by_key _ _ _ _) as [s|] eqn:Hs;
      [|by intros [? [=]]].
    intros _. apply select_student_Some in Hs as (sk & st & Hid & Hst & _).
    apply as_id_Some in Hid. eauto.
  - intros (sk & st & Hid & Hst).
    assert (DatabaseManager.select_by_key Students "student_id"
              (DatabaseManager.as_id (dict_get i "student_id")) db
            = Some (<["student_id" := VInt sk]> st)) as ->.
    { apply select_student_Some. exists sk, st. by rewrite Hid. }
    by eexists.
Qed.

Lemma listed_id_elem (f : Z * row → option row) (t : table) (k : Z) :
  (∀ ki r, f ki = Some r → dict_get r "intervention_id" = VInt ki.1) →
  VInt k ∈ (λ r : row, dict_get r "intervention_id") <$> omap f (map_to_list t)
  ↔ ∃ i, t !! k = Some i ∧ is_Some (f (k, i)).
Proof.
  intros Hid. rewrite list_elem_of_fmap. split.
  - intros (r & Hr & Hin). apply list_elem_of_omap in Hin as ([k' i] & Hin & Hf).
    apply elem_of_map_to_list in Hin. pose proof (Hid _ _ Hf) as Hk. simpl in Hk.
    assert (k' = k) as -> by congruence. eauto.
  - intros (i & Hi & [r Hr]). exists r. split; [by rewrite (Hid _ _ Hr)|].
    apply list_elem_of_omap. exists (k, i). by rewrite elem_of_map_to_list.
Qed.

Lemma overdue_row_id db today aid ki r :
  InterventionManager.overdue_row pf db today aid ki = Some r →
  dict_get r "intervention_id" = VInt ki.1.
Proof.
  unfold InterventionManager.overdue_row.
  destruct (InterventionManager.with_student_name pf db ki) as [r0|] eqn:E; [|done].
  simpl. destruct (_ && _); [|done]. intros [= <-]. by eapply with_student_name_id.
Qed.

Lemma follow_up_due_row_id db horizon aid ki r :
  InterventionManager.follow_up_due_row pf db horizon aid ki = Some r →
  dict_get r "intervention_id" = VInt ki.1.
Proof.
  unfold InterventionManager.follow_up_due_row.
  destruct (InterventionManager.with_student_name pf db ki) as [r0|] eqn:E; [|done].
  simpl. destruct (_ && _); [|done]. intros [= <-]. by eapply with_student_name_id.
Qed.

(** X10: [get_overdue_interventions] never lists an intervention that has no
    scheduled date, one whose scheduled date is today's date followed by a
    time of day, or one whose status is not Scheduled. *)
Theorem not_overdue_today (today : string) (aid : option Z) (k : Z) (i : row)
    (db : DB) :
  interventions db !! k = Some i →
  dict_get i "scheduled_date" = VNull
  ∨ (∃ time : string, dict_get i "scheduled_date" = VText (today ++ time))
  ∨ dict_get i "status" ≠ VText "Scheduled" →
  VInt k ∉ (λ r : row, dict_get r "intervention_id")
           <$> rows_of (InterventionManager.get_overdue_interventions pf today aid) db.
Proof.
  intros Hi Hcase. unfold rows_of, InterventionManager.get_overdue_interventions,
    DatabaseManager.get_connection, read. simpl.
  rewrite listed_id_elem by apply overdue_row_id.
  intros (i' & Hi' & [r Hr]). assert (i' = i) as -> by congruence.
  unfold InterventionManager.overdue_row in Hr.
  destruct (InterventionManager.with_student_name pf db (k, i)) as [r0|]; [|done].
  simpl in Hr.
  destruct (sql_eq_text (dict_get i "status") "Scheduled") eqn:Est; [|done].
  destruct (InterventionManager.sql_lt_text (dict_get i "scheduled_date") today)
    eqn:Elt; [|done].
  apply sql_eq_text_true in Est.
  destruct Hcase as [Hnull | [[time Htime] | Hst]]; [| |done].
  - by rewrite Hnull in Elt.
  - rewrite Htime in Elt. simpl in Elt. by rewrite string_ltb_extension in Elt.
Qed.

(** X11: a follow-up scheduled on an intervention that is not Completed is
    not listed: after [schedule_follow_up] on such an intervention, whether
    it returned or raised, [get_follow_ups_due] does not list the
    intervention, whatever the date. *)
Theorem follow_up_unlisted_until_completed (c : clock) (i : Z) (date notes : value)
    (horizon : string) (aid : option Z) (db : DB) :
  column_of db i "status" ≠ Some (VText "Completed") →
  VInt i ∉ (λ r : row, dict_get r "intervention_id")
           <$> rows_of (InterventionManager.get_follow_ups_due pf horizon aid)
                 (exec (InterventionManager.schedule_follow_up pf c (Some i) date notes)
                    db).
Proof.
  intros Hst.
  assert (column_of (exec (InterventionManager.schedule_follow_up pf c (Some i) date
                             notes) db) i "status" = column_of db i "status") as Hsame.
  { unfold exec.
    pose proof (schedule_follow_up_cases pf c (Some i) date notes db) as H.
    destruct (InterventionManager.schedule_follow_up _ _ _ _ _ _) as [[b|e] db']; simpl.
    - destruct H as [_ ->]. by apply column_of_updated_out.
    - by destruct H as [-> _]. }
  rewrite <- Hsame in Hst.
  set (db' := exec _ db) in *.
  unfold rows_of, InterventionManager.get_follow_ups_due,
    DatabaseManager.get_connection, read. simpl.
  rewrite listed_id_elem by apply follow_up_due_row_id.
  intros (r & Hr & [x Hx]). unfold InterventionManager.follow_up_due_row in Hx.
  destruct (InterventionManager.with_student_name pf db' (i, r)) as [r0|]; [|done].
  simpl in Hx.
  destruct (sql_eq_text (dict_get r "status") "Completed") eqn:Est.
  - apply sql_eq_text_true in Est. destruct Hst. unfold column_of.
    by rewrite Hr; simpl; rewrite Est.
  - by rewrite !andb_false_r, ?andb_false_l in Hx.
Qed.

(** X12: a follow-up scheduled on a Completed intervention whose student
    exists is listed: when [schedule_follow_up] returns for a date that is
    not after the horizon of [get_follow_ups_due], the intervention is in
    the list of the query without an advisor. *)
Theorem follow_up_listed_when_completed (c : clock) (i sk : Z) (d : string)
    (notes : value) (horizon : string) (r st : row) (b : bool) (db db' : DB) :
  interventions db !! i = Some r →
  dict_get r "status" = VText "Completed" →
  dict_get r "student_id" = VInt sk →
  students db !! sk = Some st →
  String.leb d horizon = true →
  InterventionManager.schedule_follow_up pf c (Some i) (VText d) notes db
  = (Return b, db') →
  VInt i ∈ (λ r : row, dict_get r "intervention_id")
           <$> rows_of (InterventionManager.get_follow_ups_due pf horizon None) db'.
Proof.
  intros Hi Hst Hid Hstudent Hle Hcall.
  pose proof (schedule_follow_up_cases pf c (Some i) (VText d) notes db) as H.
  rewrite Hcall in H. destruct H as [_ ->].
  unfold rows_of, InterventionManager.get_follow_ups_due,
    DatabaseManager.get_connection, read. simpl.
  rewrite listed_id_elem by apply follow_up_due_row_id.
  set (kw := follow_up_data (VText d) notes).
  exists (DatabaseManager.updated_row (sql_now c) kw r). split.
  { rewrite lookup_alter_eq, Hi. done. }
  unfold InterventionManager.follow_up_due_row.
  match goal with
  | |- is_Some (InterventionManager.with_student_name pf ?d ?ki ≫= _) =>
      assert (is_Some (InterventionManager.with_student_name pf d ki)) as [x ->]
  end.
  { apply with_student_name_Some. exists sk, st. split; [|done].
    rewrite dict_get_updated_out; done. }
  simpl.
  rewrite (dict_get_updated_in _ kw r "follow_up_required" (VInt 1)) by done.
  rewrite (dict_get_updated_in _ kw r "follow_up_date" (VText d)) by done.
  rewrite (dict_get_updated_out _ kw r "status") by done.
  rewrite Hst. simpl. rewrite Hle. simpl. by eexists.
Qed.

Lemma pending_rows_id db aid ki r :
  r ∈ InterventionManager.pending_rows pf db aid ki →
  sql_eq_int (dict_get r "intervention_id") (Some ki.1) = true.
Proof.
  unfold InterventionManager.pending_rows.
  destruct (DatabaseManager.as_id _) as [sk|]; [|by intros ?%not_elem_of_nil].
  destruct (students db !! sk) as [s|]; [|by intros ?%not_elem_of_nil].
  destruct (_ && _); [|by intros ?%not_elem_of_nil].
  assert (∀ rs : row,
    sql_eq_int (dict_get
      (<["risk_category" := dict_get rs "risk_category"]>
         (<["overall_risk_score" := dict_get rs "overall_risk_score"]>
            (<["student_classification" := dict_get s "classification"]>
               (<["student_name" := InterventionManager.full_name pf s]>
                  (<["intervention_id" := VInt ki.1]> ki.2))))) "intervention_id")
      (Some ki.1) = true) as Hj.
  { intros rs. apply sql_eq_int_Some. unfold dict_get. by simplify_map_eq. }
  destruct (InterventionManager.current_scores_of db sk) as [|rs scores].
  - intros ->%list_elem_of_singleton. apply Hj.
  - intros (rs' & -> & _)%list_elem_of_fmap. apply Hj.
Qed.

Lemma filter_none {A} (P : A → Prop) `{!∀ x, Decision (P x)} (l : list A) :
  (∀ x, x ∈ l → ¬ P x) → filter P l = [].
Proof.
  induction l as [|a l IH]; [done|]. intros Hall.
  rewrite filter_cons. rewrite decide_False by (apply Hall, list_elem_of_here).
  apply IH. intros x Hx. apply Hall. by apply list_elem_of_further.
Qed.

Lemma filter_all {A} (P : A → Prop) `{!∀ x, Decision (P x)} (l : list A) :
  (∀ x, x ∈ l → P x) → filter P l = l.
Proof.
  induction l as [|a l IH]; [done|]. intros Hall.
  rewrite filter_cons. rewrite decide_True by (apply Hall, list_elem_of_here).
  f_equal. apply IH. intros x Hx. apply Hall. by apply list_elem_of_further.
Qed.

Lemma filter_bind_other (f : Z * row → list row) (k : Z) (l : list (Z * row)) :
  (∀ ki r, r ∈ f ki → sql_eq_int (dict_get r "intervention_id") (Some ki.1) = true) →
  k ∉ l.*1 →
  filter (λ r : row, sql_eq_int (dict_get r "intervention_id") (Some k) = true) (l ≫= f)
  = [].
Proof.
  intros Hid Hk. induction l as [|[k' i'] l IH]; [done|].
  rewrite bind_cons, filter_app. rewrite fmap_cons, not_elem_of_cons in Hk.
  destruct Hk as [Hne Hk]. rewrite (IH Hk), app_nil_r.
  apply filter_none. intros r Hr Hp.
  apply Hid in Hr. simpl in *. apply sql_eq_int_Some in Hr, Hp. congruence.
Qed.

Lemma filter_bind_one (f : Z * row → list row) (k : Z) (i : row) (l : list (Z * row)) :
  (∀ ki r, r ∈ f ki → sql_eq_int (dict_get r "intervention_id") (Some ki.1) = true) →
  NoDup l.*1 → (k, i) ∈ l →
  filter (λ r : row, sql_eq_int (dict_get r "intervention_id") (Some k) = true) (l ≫= f)
  = f (k, i).
Proof.
  intros Hid Hnd Hin. induction l as [|[k' i'] l IH]; [by apply not_elem_of_nil in Hin|].
  rewrite bind_cons, filter_app. rewrite fmap_cons in Hnd.
  apply NoDup_cons in Hnd as [Hk' Hnd].
  apply elem_of_cons in Hin as [[= <- <-]|Hin].
  - rewrite (filter_bind_other f k l Hid Hk'), app_nil_r.
    apply filter_all. intros r Hr. by apply (Hid (k, i)).
  - rewrite (IH Hnd Hin).
    assert (k' ≠ k) as Hne.
    { intros ->. apply Hk'. apply list_elem_of_fmap. by exists (k, i). }
    rewrite filter_none; [done|]. intros r Hr Hp.
    apply Hid in Hr. simpl in *. apply sql_eq_int_Some in Hr, Hp. congruence.
Qed.

(** X13: [get_pending_interventions] lists a Scheduled or In Progress
    intervention of an existing student once for each current risk score of
    that student, and once when the student has none: the join with the
    current risk scores repeats the intervention for a student who has a
    current score in several terms. *)
Theorem pending_listed_once_per_current_score (k sk : Z) (i st : row) (db : DB) :
  interventions db !! k = Some i →
  dict_get i "student_id" = VInt sk →
  students db !! sk = Some st →
  dict_get i "status" = VText "Scheduled" ∨ dict_get i "status" = VText "In Progress" →
  length (filter (λ r : row, sql_eq_int (dict_get r "intervention_id") (Some k) = true)
            (rows_of (InterventionManager.get_pending_interventions pf None) db))
  = Nat.max 1 (length (InterventionManager.current_scores_of db sk)).
Proof.
  intros Hi Hid Hst Hstatus.
  unfold rows_of, InterventionManager.get_pending_interventions,
    DatabaseManager.get_connection, read. simpl.
  rewrite merge_sort_Permutation.
  rewrite (filter_bind_one _ k i).
  - unfold InterventionManager.pending_rows. simpl. rewrite Hid. simpl. rewrite Hst.
    assert ((sql_eq_text (dict_get i "status") "Scheduled"
             || sql_eq_text (dict_get i "status") "In Progress") = true) as ->.
    { destruct Hstatus as [-> | ->]; done. }
    unfold InterventionManager.advisor_clause. cbn [of_id truthy andb].
    destruct (InterventionManager.current_scores_of db sk) as [|rs scores];
      [done|].
    cbn [length]. change (list_fmap row row ?f ?l) with (f <$> l).
    rewrite length_fmap. lia.
  - intros ki r. apply pending_rows_id.
  - apply NoDup_fst_map_to_list.
  - by apply elem_of_map_to_list.
Qed.

End due.

(** ** Notifications *)

Section notifications_and_templates.
Context (pf : Platform).

Lemma mark_notification_read_cases now n db :
  match DatabaseManager.mark_notification_read pf now (Some n) db with
  | (Return _, db') =>
      db' = set_table Notifications
              (alter (DatabaseManager.read_row now) n (notifications db)) db
  | (Raise e, db') => db' = db ∧ sqlite_error e
  end.
Proof.
  unfold DatabaseManager.mark_notification_read, DatabaseManager.get_connection,
    DatabaseManager.execute_update, sqlite_error.
  repeat case_bool_decide; try naive_solver.
  unfold DatabaseManager.key_is. cbn [get_table]. by rewrite imap_as_alter.
Qed.

(** X14: a notification marked as read is no longer unread.  When
    [mark_notification_read] returns, [get_unread_notifications] lists the
    notification for no user; the row holds 1 in is_read and the time of the
    call in read_at, its other columns are as they were, and every other
    notification is untouched.  When it raises, the store is as before. *)
Theorem read_notification_is_not_unread (now : string) (n : Z) (user : option Z)
    (db : DB) :
  match DatabaseManager.mark_notification_read pf now (Some n) db with
  | (Return _, db') =>
      VInt n ∉ (λ r : row, dict_get r "notification_id")
               <$> rows_of (DatabaseManager.get_unread_notifications pf user) db'
      ∧ notifications db' !! n = DatabaseManager.read_row now <$> notifications db !! n
      ∧ (∀ j : Z, j ≠ n → notifications db' !! j = notifications db !! j)
      ∧ (∀ (r : row) (col : string), col ≠ "is_read" → col ≠ "read_at" →
           dict_get (DatabaseManager.read_row now r) col = dict_get r col)
  | (Raise _, db') => db' = db
  end.
Proof.
  pose proof (mark_notification_read_cases now n db) as H.
  destruct (DatabaseManager.mark_notification_read _ _ _ _) as [[[]|e] db'];
    [|by destruct H].
  subst db'. cbn [notifications set_table]. split; [|split; [|split]].
  - unfold rows_of, DatabaseManager.get_unread_notifications,
      DatabaseManager.get_connection, read. simpl.
    intros Hin. apply list_elem_of_fmap in Hin as (r & Hr & Hin).
    rewrite merge_sort_Permutation in Hin.
    apply list_elem_of_omap in Hin as ([k r0] & Hin & Hf).
    apply elem_of_map_to_list in Hin.
    unfold DatabaseManager.unread_row in Hf. simpl in Hf.
    destruct (sql_eq_int (dict_get r0 "user_id") user); [|done].
    destruct (sql_eq_int (dict_get r0 "is_read") (Some 0)) eqn:Eread; [|done].
    simpl in Hf. injection Hf as <-.
    unfold dict_get in Hr. rewrite lookup_insert_eq in Hr. injection Hr as <-.
    rewrite lookup_alter_eq in Hin.
    destruct (notifications db !! n) as [old|]; [|done]. simpl in Hin.
    injection Hin as <-. apply sql_eq_int_Some in Eread.
    unfold DatabaseManager.read_row, dict_get in Eread.
    rewrite lookup_insert_ne in Eread by done. by rewrite lookup_insert_eq in Eread.
  - by rewrite lookup_alter_eq.
  - intros j Hj. by rewrite lookup_alter_ne.
  - intros r col H1 H2. unfold DatabaseManager.read_row, dict_get.
    by rewrite !lookup_insert_ne.
Qed.

(** X15: [create_intervention] notifies the student when the student exists
    and has a user account, and no one otherwise.  When it returns the id
    [k], the notifications are those there were, with, in the first case,
    one more: of type intervention_scheduled, for the account of the
    student, of the priority of the intervention and referring to the
    intervention [k].  When it raises, no notification has been removed. *)
Theorem create_intervention_notifies_the_student (sid aid : option Z)
    (title desc itype prio sched loc meth fur notes : value) (db : DB) :
  match InterventionManager.create_intervention pf sid aid title desc itype prio
          sched loc meth fur notes db with
  | (Return k, db') =>
      notifications db'
      = match notified_student db sid with
        | Some student =>
            <[next_rowid (notifications db) :=
                scheduled_notification pf student title prio sched k]> (notifications db)
        | None => notifications db
        end
      ∧ ∀ student : row,
          let n := scheduled_notification pf student title prio sched k in
          dict_get n "user_id" = dict_get student "user_id"
          ∧ dict_get n "notification_type" = VText "intervention_scheduled"
          ∧ dict_get n "priority" = prio
          ∧ dict_get n "related_entity_type" = VText "interventions"
          ∧ dict_get n "related_entity_id" = VInt k
  | (Raise _, db') => notifications db ⊆ notifications db'
  end
  ∧ notified_student db sid
    = match sid with
      | Some s =>
          match students db !! s with
          | Some student =>
              if truthy (dict_get student "user_id")
              then Some (<["student_id" := VInt s]> student) else None
          | None => None
          end
      | None => None
      end.
Proof.
  split.
  - pose proof (create_intervention_steps pf sid aid title desc itype prio sched loc
                  meth fur notes db) as H. cbv zeta in H.
    destruct (InterventionManager.create_intervention _ _ _ _ _ _ _ _ _ _ _ _ _)
      as [[k|e] db'].
    + destruct H as [-> ->]. split.
      * by destruct (notified_student db sid).
      * intros student n. unfold n, scheduled_notification,
          DatabaseManager.notification_row, dict_get, dict_get_or.
        repeat split; by simplify_map_eq.
    + destruct H as [_ [-> | [-> | ->]]]; [done|done|].
      destruct (notified_student db sid); [|done].
      cbn [notifications set_table with_insert get_table].
      apply insert_subseteq, next_rowid_fresh.
  - unfold notified_student, DatabaseManager.select_by_key. cbn [get_table].
    destruct sid as [s|]; [|done]. simpl.
    destruct (students db !! s) as [student|]; [|done]. simpl.
    unfold dict_get. by rewrite lookup_insert_ne.
Qed.

End notifications_and_templates.

(** ** Templates and bulk creation *)

Section templates.
Context (pf : Platform).

(** What one [create_intervention] of the loop leaves, as far as the
    interventions, the audit log and the templates go. *)
Lemma create_intervention_growth sid aid title desc itype prio sched loc meth fur notes db :
  let new := DatabaseManager.intervention_row sid aid title
               (creation_kwargs desc itype prio sched loc meth fur notes) in
  match InterventionManager.create_intervention pf sid aid title desc itype prio
          sched loc meth fur notes db with
  | (Return k, db') =>
      interventions db !! k = None
      ∧ interventions db' = <[k := new]> (interventions db)
      ∧ size (audit_logs db') = S (size (audit_logs db))
      ∧ intervention_types db' = intervention_types db
  | (Raise e, db') =>
      sqlite_error e
      ∧ (interventions db' = interventions db
         ∨ interventions db' = <[next_rowid (interventions db) := new]> (interventions db))
      ∧ intervention_types db' = intervention_types db
  end.
Proof.
  intros new.
  pose proof (create_intervention_steps pf sid aid title desc itype prio sched loc
                meth fur notes db) as H. cbv zeta in H. fold new in H.
  destruct (InterventionManager.create_intervention _ _ _ _ _ _ _ _ _ _ _ _ _)
    as [[k|e] db'].
  - destruct H as [-> ->]. split; [apply next_rowid_fresh|].
    destruct (notified_student db sid);
      cbn [interventions audit_logs intervention_types set_table with_insert get_table];
      (split; [done|]); (split; [|done]);
      apply map_size_insert_None, next_rowid_fresh.
  - destruct H as [He [-> | [-> | ->]]]; (split; [done|]).
    + by split; [left|].
    + by split; [right|].
    + destruct (notified_student db sid); by split; [right|].
Qed.

Lemma intervention_row_columns sid aid title desc itype prio sched loc meth fur notes :
  let new := DatabaseManager.intervention_row sid aid title
               (creation_kwargs desc itype prio sched loc meth fur notes) in
  dict_get new "student_id" = of_id sid
  ∧ dict_get new "advisor_id" = of_id aid
  ∧ dict_get new "title" = title
  ∧ dict_get new "description" = desc
  ∧ dict_get new "intervention_type_id" = itype
  ∧ dict_get new "priority" = prio
  ∧ dict_get new "status" = VText "Scheduled"
  ∧ dict_get new "scheduled_date" = sched
  ∧ dict_get new "method" = meth.
Proof.
  unfold DatabaseManager.intervention_row, creation_kwargs, dict_get, dict_get_or.
  repeat split; by simplify_map_eq.
Qed.



(** X17: [create_from_template] raises [ValueError] with "Template not
    found", writing nothing, when no intervention type has the id.
    Otherwise the intervention it creates takes its title, description and
    priority from the template (a NULL default priority is stored as NULL),
    refers to the template, and is Scheduled, In-person, for the given
    student, advisor and date. *)
Theorem create_from_template_inherits (sid aid ty : option Z) (sched : value)
    (db : DB) :
  let template :=
    DatabaseManager.select_by_key InterventionTypes "intervention_type_id" ty db in
  match InterventionManager.create_from_template pf sid aid ty sched db with
  | (Returns k, db') =>
      interventions db !! k = None
      ∧ ∃ (t r : row),
          template = Some t
          ∧ interventions db' !! k = Some r
          ∧ dict_get r "title" = dict_get t "type_name"
          ∧ dict_get r "description" = dict_get t "description"
          ∧ dict_get r "priority" = dict_get t "default_priority"
          ∧ dict_get r "intervention_type_id" = of_id ty
          ∧ dict_get r "status" = VText "Scheduled"
          ∧ dict_get r "method" = VText "In-person"
          ∧ dict_get r "scheduled_date" = sched
          ∧ dict_get r "student_id" = of_id sid
          ∧ dict_get r "advisor_id" = of_id aid
  | (Raises (ValueError message), db') =>
      message = "Template not found" ∧ template = None ∧ db' = db
  | (Raises (StoreError e), db') => sqlite_error e ∧ is_Some template
  end.
Proof.
  intros template. unfold InterventionManager.create_from_template. fold template.
  destruct template as [t|] eqn:Et; [|done].
  unfold lift.
  pose proof (create_intervention_growth sid aid (dict_get t "type_name")
                (dict_get t "description") (of_id ty) (dict_get t "default_priority")
                sched VNull (VText "In-person") (VInt 0) VNull db) as H.
  cbv zeta in H.
  destruct (InterventionManager.create_intervention _ _ _ _ _ _ _ _ _ _ _ _ _)
    as [[k|e] db'].
  - destruct H as (Hk & Hi & _). split; [done|]. exists t. eexists.
    split; [done|]. split; [rewrite Hi; apply lookup_insert_eq|].
    pose proof (intervention_row_columns sid aid (dict_get t "type_name")
                  (dict_get t "description") (of_id ty)
                  (dict_get t "default_priority") sched VNull
                  (VText "In-person") (VInt 0) VNull) as Hcols. cbv zeta in Hcols.
    destruct Hcols as (H1 & H2 & H3 & H4 & H5 & H6 & H7 & H8 & H9).
    by rewrite H1, H2, H3, H4, H5, H6, H7, H8, H9.
  - destruct H as (He & _). split; [done|]. by eexists.
Qed.

End templates.

(** ** Statements outside one transaction *)

Section transactions.
Context (pf : Platform).

Lemma update_status_steps c id st notes db :
  let data := status_update_data pf c (lookup_intervention db id) st notes in
  InterventionManager.update_status pf c id st notes db
  = match DatabaseManager.update_intervention pf (sql_now c) id data db with
    | (Return _, db1) =>
        match DatabaseManager.log_action pf None (VText "INTERVENTION_STATUS_UPDATED")
                (VText "interventions") id None (Some {[ "status" := st ]}) db1 with
        | (Return _, db2) => (Return true, db2)
        | (Raise e, db2) => (Raise e, db2)
        end
    | (Raise e, db1) => (Raise e, db1)
    end.
Proof.
  intros data. unfold InterventionManager.update_status.
  unfold mbind at 1. unfold M_bind at 1.
  rewrite update_status_data.
  unfold mbind, M_bind, mret, M_ret.
  match goal with
  | |- context [DatabaseManager.update_intervention pf ?n ?i ?d db] =>
      replace d with data
  end.
  2:{ unfold data, status_update_data.
      destruct (lookup_intervention db id); destruct (truthy notes); done. }
  destruct (DatabaseManager.update_intervention _ _ _ _ _) as [[[]|e] db1]; [|done].
  by destruct (DatabaseManager.log_action _ _ _ _ _ _ _ _) as [[[]|e] db2].
Qed.

(** X18: [update_status] is not one transaction.  When the store takes the
    UPDATE of the intervention and then refuses the INSERT of the audit row,
    the call raises and the store keeps the update: the status (and the
    note, and the completion date) is changed although the caller sees an
    exception and no audit row was written. *)
Theorem update_status_keeps_update_when_audit_fails (c : clock) (id : option Z)
    (st notes : value) (db : DB) :
  let data := status_update_data pf c (lookup_intervention db id) st notes in
  store_accepts_update pf (sql_now c) id data db →
  ¬ store_accepts_insert pf AuditLogs (status_audit_row pf id st)
      (with_update (sql_now c) id data db) →
  returned (outcome (InterventionManager.update_status pf c id st notes) db) = false
  ∧ exec (InterventionManager.update_status pf c id st notes) db
    = with_update (sql_now c) id data db
  ∧ audit_logs (exec (InterventionManager.update_status pf c id st notes) db)
    = audit_logs db.
Proof.
  intros data Hup Hins. unfold outcome, exec. rewrite update_status_steps. fold data.
  apply update_intervention_returns in Hup.
  pose proof (update_intervention_cases pf (sql_now c) id data db) as Hu.
  destruct (DatabaseManager.update_intervention _ _ _ _ _) as [[[]|e] db1]; [|done].
  subst db1. unfold status_audit_row in Hins. rewrite <- log_action_returns in Hins.
  pose proof (log_action_cases pf None (VText "INTERVENTION_STATUS_UPDATED")
                (VText "interventions") id None (Some {[ "status" := st ]})
                (with_update (sql_now c) id data db)) as Hl.
  destruct (DatabaseManager.log_action _ _ _ _ _ _ _ _) as [[[]|e] db2]; [done|].
  destruct Hl as [-> _]. simpl. repeat split.
  by destruct (with_update_other (sql_now c) id data db) as (_ & _ & _ & _ & _ & ->).
Qed.

Lemma complete_intervention_steps c id oa sr resp dur db :
  let db1 := with_update (sql_now c) id (completion_data c oa sr resp dur) db in
  match InterventionManager.complete_intervention pf c id oa sr resp dur db with
  | (Return b, db') =>
      b = true
      ∧ db' = match completion_notification pf id db1 with
              | Some n => with_insert Notifications n db1
              | None => db1
              end
  | (Raise e, db') => sqlite_error e ∧ (db' = db ∨ db' = db1)
  end.
Proof.
  intros db1. unfold InterventionManager.complete_intervention.
  unfold mbind at 1. unfold M_bind at 1.
  pose proof (update_intervention_cases pf (sql_now c) id
                (completion_data c oa sr resp dur) db) as Hu.
  unfold completion_data in Hu at 1.
  destruct (DatabaseManager.update_intervention _ _ _ _ _) as [[[]|e] db2].
  2:{ destruct Hu as [-> He]. auto. }
  subst db2. fold db1.
  unfold completion_notification.
  unfold mbind at 1. unfold M_bind at 1.
  unfold InterventionManager.get_intervention_by_id, DatabaseManager.get_connection, read.
  destruct (InterventionManager.intervention_details pf db1 id) as [iv|]; simpl.
  2:{ by unfold mbind, M_bind, mret, M_ret. }
  unfold mbind at 1. unfold M_bind at 1.
  unfold mbind at 1. unfold M_bind at 1.
  unfold DatabaseManager.get_student_by_id, DatabaseManager.get_connection, read.
  destruct (DatabaseManager.select_by_key Students _ _ db1) as [student|]; simpl.
  2:{ by unfold mret, M_ret. }
  destruct (truthy (dict_get student "user_id")); simpl.
  2:{ by unfold mret, M_ret. }
  unfold mbind at 1. unfold M_bind at 1.
  match goal with
  | |- context [DatabaseManager.create_notification pf ?u ?t ?ti ?m ?kw db1] =>
      pose proof (create_notification_cases pf u t ti m kw db1) as Hn
  end.
  match goal with
  | |- context [DatabaseManager.create_notification pf ?u ?t ?ti ?m ?kw db1] =>
      destruct (DatabaseManager.create_notification pf u t ti m kw db1) as [[n|e] d2]
  end.
  - destruct Hn as [_ ->]. by unfold mret, M_ret.
  - destruct Hn as [-> He]. auto.
Qed.

(** X19: [complete_intervention] notifies the student only through the join
    of [get_intervention_by_id].  When it returns, the notifications are
    those there were, with one more, of type intervention_completed, exactly
    when the intervention exists and joins a student and an advisor and the
    student has a user account; in particular an intervention whose advisor
    does not exist is completed without any notification.  When it raises,
    the notifications are as they were. *)
Theorem complete_intervention_notification (c : clock) (i : Z)
    (oa sr resp dur : value) (db : DB) :
  let db1 := with_update (sql_now c) (Some i) (completion_data c oa sr resp dur) db in
  match InterventionManager.complete_intervention pf c (Some i) oa sr resp dur db with
  | (Return _, db') =>
      notifications db'
      = match completion_notification pf (Some i) db1 with
        | Some n => <[next_rowid (notifications db) := n]> (notifications db)
        | None => notifications db
        end
  | (Raise _, db') => notifications db' = notifications db
  end
  ∧ (∀ n : row, completion_notification pf (Some i) db1 = Some n →
       dict_get n "notification_type" = VText "intervention_completed"
       ∧ dict_get n "related_entity_id" = VInt i
       ∧ dict_get n "priority" = VText "Normal")
  ∧ (interventions db !! i = None → completion_notification pf (Some i) db1 = None)
  ∧ (∀ r : row, interventions db !! i = Some r →
       DatabaseManager.select_by_key Advisors "advisor_id"
         (DatabaseManager.as_id (dict_get r "advisor_id")) db = None →
       completion_notification pf (Some i) db1 = None).
Proof.
  intros db1.
  assert (notifications db1 = notifications db) as Hn1.
  { done. }
  split; [|split; [|split]].
  - pose proof (complete_intervention_steps c (Some i) oa sr resp dur db) as H.
    cbv zeta in H. fold db1 in H.
    destruct (InterventionManager.complete_intervention _ _ _ _ _ _ _ _)
      as [[b|e] db'].
    + destruct H as [_ ->].
      destruct (completion_notification pf (Some i) db1) as [n|]; [|done].
      cbn [notifications set_table with_insert get_table]. by rewrite Hn1.
    + destruct H as [_ [-> | ->]]; done.
  - intros n. unfold completion_notification.
    destruct (InterventionManager.intervention_details pf db1 (Some i)) as [iv|];
      [|done]. simpl.
    destruct (DatabaseManager.select_by_key Students _ _ db1) as [student|]; [|done].
    simpl. destruct (truthy (dict_get student "user_id")); [|done].
    intros [= <-]. unfold DatabaseManager.notification_row, dict_get, dict_get_or.
    repeat split; by simplify_map_eq.
  - intros Hi. unfold db1. rewrite (with_update_missing _ _ _ _ Hi).
    unfold completion_notification, InterventionManager.intervention_details,
      DatabaseManager.select_by_key. cbn [get_table]. simpl. by rewrite Hi.
  - intros r Hi Hadv. unfold completion_notification,
      InterventionManager.intervention_details.
    set (r1 := DatabaseManager.updated_row (sql_now c) (completion_data c oa sr resp dur) r).
    assert (DatabaseManager.select_by_key Interventions "intervention_id" (Some i) db1
            = Some (<["intervention_id" := VInt i]> r1)) as ->.
    { unfold DatabaseManager.select_by_key, db1, with_update. simpl.
      by rewrite lookup_alter_eq, Hi. }
    simpl.
    destruct (DatabaseManager.select_by_key Students _ _ db1) as [student|]; [|done].
    simpl.
    assert (DatabaseManager.select_by_key Advisors "advisor_id"
              (DatabaseManager.as_id
                 (dict_get (<["intervention_id" := VInt i]> r1) "advisor_id")) db1
            = None) as ->; [|done].
    assert (dict_get (<["intervention_id" := VInt i]> r1) "advisor_id"
            = dict_get r "advisor_id") as ->.
    { unfold dict_get at 1. rewrite lookup_insert_ne by done.
      unfold r1. by apply dict_get_updated_out. }
    exact Hadv.
Qed.

End transactions.

(** ** Closed instances *)


Lemma update_status_missing_intervention_witness :
  interventions example_db !! 99 = None
  ∧ match InterventionManager.update_status example_platform example_clock (Some 99)
            (VText "Completed") VNull example_db with
    | (Return b, db') =>
        b = true
        ∧ db' = with_insert AuditLogs
                  (status_audit_row example_platform (Some 99) (VText "Completed"))
                  example_db
        ∧ interventions db' = interventions example_db
        ∧ audit_logs db' !! next_rowid (audit_logs example_db)
          = Some (status_audit_row example_platform (Some 99) (VText "Completed"))
    | (Raise _, db') => db' = example_db
    end.
Proof.
  split; [reflexivity|].
  apply (update_status_missing_intervention example_platform example_clock 99
           (VText "Completed") VNull example_db).
  reflexivity.
Defined.

Lemma get_interventions_for_student_exact_witness :
  42 ≠ 0
  ∧ (default ∅ (head (rows_of (InterventionManager.get_interventions_for_student
                                 example_platform (Some 42) (Some "Scheduled"))
                        example_created))
     ∈ rows_of (InterventionManager.get_interventions_for_student example_platform
                  (Some 42) (Some "Scheduled")) example_created
     ↔ ∃ (k : Z) (i st : row),
         interventions example_created !! k = Some i
         ∧ students example_created !! 42 = Some st
         ∧ dict_get i "student_id" = VInt 42
         ∧ ("Scheduled" = EmptyString ∨ dict_get i "status" = VText "Scheduled")
         ∧ default ∅ (head (rows_of (InterventionManager.get_interventions_for_student
                                       example_platform (Some 42) (Some "Scheduled"))
                              example_created))
           = <["student_name" := InterventionManager.full_name example_platform st]>
               (<["intervention_id" := VInt k]> i)).
Proof.
  split; [lia|].
  apply (get_interventions_for_student_exact example_platform 42 (Some "Scheduled")
           example_created).
  lia.
Defined.

Lemma created_intervention_is_listed_witness :
  42 ≠ 0
  ∧ is_Some (students example_db !! 42)
  ∧ outcome (InterventionManager.create_intervention example_platform (Some 42) (Some 7)
               (VText "Academic Check-In") (VText "Check-in") VNull (VText "High")
               VNull VNull (VText "In-person") (VInt 0) VNull) example_db = Return 1
  ∧ ∃ r : row,
      r ∈ rows_of (InterventionManager.get_interventions_for_student example_platform
                     (Some 42) None) example_created
      ∧ dict_get r "intervention_id" = VInt 1
      ∧ dict_get r "status" = VText "Scheduled"
      ∧ dict_get r "title" = VText "Academic Check-In"
      ∧ dict_get r "advisor_id" = of_id (Some 7)
      ∧ dict_get r "priority" = VText "High".
Proof.
  split; [lia|]. split; [by eexists|]. split; [vm_compute; reflexivity|].
  eapply (created_intervention_is_listed example_platform 42 1 _ (Some 7)
            (VText "Academic Check-In") (VText "Check-in") VNull (VText "High")
            VNull VNull (VText "In-person") (VInt 0) VNull example_db example_created).
  - lia.
  - vm_compute. reflexivity.
  - vm_compute. reflexivity.
Defined.

Lemma not_overdue_today_witness :
  column_of example_created 1 "scheduled_date" = Some VNull
  ∧ VInt 1 ∉ (λ r : row, dict_get r "intervention_id")
             <$> rows_of (InterventionManager.get_overdue_interventions example_platform
                            "2025-03-01" None) example_created.
Proof.
  split; [vm_compute; reflexivity|].
  eapply (not_overdue_today example_platform "2025-03-01" None 1 _ example_created).
  - vm_compute. reflexivity.
  - left. vm_compute. reflexivity.
Defined.

Lemma follow_up_unlisted_until_completed_witness :
  column_of example_created 1 "status" ≠ Some (VText "Completed")
  ∧ VInt 1 ∉ (λ r : row, dict_get r "intervention_id")
             <$> rows_of (InterventionManager.get_follow_ups_due example_platform
                            "2025-03-22" None)
                   (exec (InterventionManager.schedule_follow_up example_platform
                            example_clock (Some 1) (VText "2025-03-15") VNull)
                      example_created).
Proof.
  split; [vm_compute; discriminate|].
  apply (follow_up_unlisted_until_completed example_platform example_clock 1
           (VText "2025-03-15") VNull "2025-03-22" None example_created).
  vm_compute. discriminate.
Defined.

Lemma follow_up_listed_when_completed_witness :
  column_of example_completed 1 "status" = Some (VText "Completed")
  ∧ String.leb "2025-03-15" "2025-03-22" = true
  ∧ outcome (InterventionManager.schedule_follow_up example_platform example_clock
               (Some 1) (VText "2025-03-15") VNull) example_completed = Return true
  ∧ VInt 1 ∈ (λ r : row, dict_get r "intervention_id")
             <$> rows_of (InterventionManager.get_follow_ups_due example_platform
                            "2025-03-22" None)
                   (exec (InterventionManager.schedule_follow_up example_platform
                            example_clock (Some 1) (VText "2025-03-15") VNull)
                      example_completed).
Proof.
  split; [vm_compute; reflexivity|]. split; [vm_compute; reflexivity|].
  split; [vm_compute; reflexivity|].
  eapply (follow_up_listed_when_completed example_platform example_clock 1 42
            "2025-03-15" VNull "2025-03-22" _ _ true example_completed).
  - vm_compute. reflexivity.
  - vm_compute. reflexivity.
  - vm_compute. reflexivity.
  - vm_compute. reflexivity.
  - vm_compute. reflexivity.
  - vm_compute. reflexivity.
Defined.

Lemma pending_listed_once_per_current_score_witness :
  column_of example_two_terms 1 "status" = Some (VText "Scheduled")
  ∧ length (InterventionManager.current_scores_of example_two_terms 42) = 2%nat
  ∧ length (filter (λ r : row,
                      sql_eq_int (dict_get r "intervention_id") (Some 1) = true)
              (rows_of (InterventionManager.get_pending_interventions example_platform
                          None) example_two_terms))
    = Nat.max 1 (length (InterventionManager.current_scores_of example_two_terms 42)).
Proof.
  split; [vm_compute; reflexivity|]. split; [vm_compute; reflexivity|].
  eapply (pending_listed_once_per_current_score example_platform 1 42 _ _
            example_two_terms).
  - vm_compute. reflexivity.
  - vm_compute. reflexivity.
  - vm_compute. reflexivity.
  - left. vm_compute. reflexivity.
Defined.

Lemma update_status_keeps_update_when_audit_fails_witness :
  returned (outcome (InterventionManager.update_status strict_audit_platform
                       example_clock (Some 1) (VText "Completed") VNull)
              example_created) = false
  ∧ exec (InterventionManager.update_status strict_audit_platform example_clock
            (Some 1) (VText "Completed") VNull) example_created
    = with_update (sql_now example_clock) (Some 1)
        (status_update_data strict_audit_platform example_clock
           (lookup_intervention example_created (Some 1)) (VText "Completed") VNull)
        example_created
  ∧ audit_logs (exec (InterventionManager.update_status strict_audit_platform
                        example_clock (Some 1) (VText "Completed") VNull)
                  example_created)
    = audit_logs example_created.
Proof.
  apply (update_status_keeps_update_when_audit_fails strict_audit_platform
           example_clock (Some 1) (VText "Completed") VNull example_created).
  - split; [vm_compute; discriminate|]. split.
    + apply (bool_decide_unpack _). vm_compute. reflexivity.
    + apply (bool_decide_unpack _). vm_compute. reflexivity.
  - intros [_ H]. vm_compute in H. discriminate H.
Defined.
